(** * Quaternion inspector (data/lldb/quaternion.py)

    A shallow embedding of the LLDB pretty-printer for
    [alloy::math::quaternion::Quaternion]: the synthetic child provider
    (class [Quaternion]) and the one-line summary ([quaternion_summary]).

    Layers, bottom up:
    - [Py]: Python computations that either return or raise;
    - Python's [float]: binary64 values ([spec_float] of the standard
      library), [float(str)], comparison with [0], [abs] and [str];
    - the debugger's reflection API ([SBValue] and friends) as an interface;
    - the two entry points of quaternion.py, translated line by line;
    - the properties of the inspector. *)

From Stdlib Require Import ZArith List String Ascii Bool Lia.
From Stdlib Require Import Floats.SpecFloat.
Import ListNotations.

Set Implicit Arguments.

Local Open Scope string_scope.
Local Open Scope Z_scope.

(* ================================================================== *)
(** ** Python computations *)
(* ================================================================== *)

(** The exceptions the script can meet. *)
Inductive exn : Type :=
  | TypeError
  | ValueError.

(** A Python expression either evaluates to a value or raises. *)
Inductive Py (A : Type) : Type :=
  | Return (a : A)
  | Raise (e : exn).

Arguments Return {A} a.
Arguments Raise {A} e.

Definition bind {A B : Type} (c : Py A) (k : A -> Py B) : Py B :=
  match c with
  | Return a => k a
  | Raise e => Raise e
  end.

Notation "x <- c ;; k" := (bind c (fun x => k))
  (at level 61, c at next level, right associativity).

(** [try: body / except: handler] with a bare [except], which catches
    every exception. *)
Definition try_except {A : Type} (body : Py A) (handler : Py A) : Py A :=
  match body with
  | Return a => Return a
  | Raise _ => handler
  end.

Definition raises {A : Type} (c : Py A) : Prop := exists e, c = Raise e.
Definition returns {A : Type} (c : Py A) : Prop := exists a, c = Return a.

(* ================================================================== *)
(** ** Python floats *)
(* ================================================================== *)

(** A Python [float] is an IEEE 754 binary64 value. *)
Definition float : Type := spec_float.

Definition prec : Z := 53.
Definition emax : Z := 1024.

Definition float_zero : float := S754_zero false.

(** [v == 0], [v < 0] and [abs(v)] on a float. *)
Definition float_eq_0 (v : float) : bool := SFeqb v float_zero.
Definition float_lt_0 (v : float) : bool := SFltb v float_zero.
Definition float_abs (v : float) : float := SFabs v.

(** *** Characters

    A [string] is read as a sequence of code points below 256. *)

Definition code (c : ascii) : Z := Z.of_N (N_of_ascii c).

(** White space that [float()] strips at both ends. *)
Definition is_space (c : ascii) : bool :=
  let n := code c in
  ((9 <=? n) && (n <=? 13)) || (n =? 32) || (n =? 133) || (n =? 160).

Definition digit_value (c : ascii) : option Z :=
  let n := code c in
  if (48 <=? n) && (n <=? 57) then Some (n - 48) else None.

Definition is_digit (c : ascii) : bool :=
  match digit_value c with Some _ => true | None => false end.

Definition to_lower (c : ascii) : ascii :=
  let n := code c in
  if (65 <=? n) && (n <=? 90) then ascii_of_N (Z.to_N (n + 32)) else c.

Definition chars (s : string) : list ascii := list_ascii_of_string s.

Definition chars_eqb (a b : list ascii) : bool :=
  String.eqb (string_of_list_ascii a) (string_of_list_ascii b).

(** *** [float(str)] *)

Fixpoint drop_spaces (cs : list ascii) : list ascii :=
  match cs with
  | c :: cs' => if is_space c then drop_spaces cs' else cs
  | [] => []
  end.

Definition strip (cs : list ascii) : list ascii :=
  rev (drop_spaces (rev (drop_spaces cs))).

(** Underscores may only sit between two digits; they are removed. *)
Fixpoint strip_underscores (prev : option ascii) (cs : list ascii)
  : option (list ascii) :=
  match cs with
  | [] =>
      match prev with
      | Some "_"%char => None
      | _ => Some []
      end
  | c :: cs' =>
      if Ascii.eqb c "_" then
        match prev with
        | Some p => if is_digit p then strip_underscores (Some c) cs' else None
        | None => None
        end
      else
        match prev with
        | Some "_"%char =>
            if is_digit c
            then option_map (cons c) (strip_underscores (Some c) cs')
            else None
        | _ => option_map (cons c) (strip_underscores (Some c) cs')
        end
  end.

Definition read_sign (cs : list ascii) : bool * list ascii :=
  match cs with
  | "-"%char :: cs' => (true, cs')
  | "+"%char :: cs' => (false, cs')
  | _ => (false, cs)
  end.

(** Reads a run of digits: the accumulated value, how many digits were
    read, and what follows. *)
Fixpoint read_digits (cs : list ascii) (acc : Z) (n : Z)
  : Z * Z * list ascii :=
  match cs with
  | c :: cs' =>
      match digit_value c with
      | Some d => read_digits cs' (10 * acc + d) (n + 1)
      | None => (acc, n, cs)
      end
  | [] => (acc, n, [])
  end.

(** The exponent part: nothing, or [e]/[E], an optional sign and at
    least one digit, up to the end of the text. *)
Definition read_exponent (cs : list ascii) : option Z :=
  match cs with
  | [] => Some 0
  | c :: cs' =>
      if Ascii.eqb (to_lower c) "e" then
        let '(neg, ds) := read_sign cs' in
        let '(v, n, rest) := read_digits ds 0 0 in
        match rest with
        | [] => if 0 <? n then Some (if neg then - v else v) else None
        | _ :: _ => None
        end
      else None
  end.

(** A decimal literal [digits [. digits] [exponent]] with at least one
    digit in the mantissa, as the pair [(d, k)] standing for [d * 10^k]. *)
Definition read_decimal (cs : list ascii) : option (Z * Z) :=
  let '(a, n1, rest) := read_digits cs 0 0 in
  let '(d, n2, rest') :=
    match rest with
    | "."%char :: fr => read_digits fr a 0
    | _ => (a, 0, rest)
    end in
  if 0 <? n1 + n2 then
    match read_exponent rest' with
    | Some x => Some (d, x - n2)
    | None => None
    end
  else None.

(** The value [d * 10^k] rounded to the nearest binary64, ties to even.
    The two early exits only shortcut results the rounding would give:
    at [10^310] and above every value overflows, and below [10^-330]
    every value rounds to zero. *)
Definition round_decimal (s : bool) (d : positive) (k : Z) : float :=
  if 310 <=? k then S754_infinity s
  else if k + Zdigits2 (Zpos d) <? -330 then S754_zero s
  else if 0 <=? k then
    match Zpos d * 10 ^ k with
    | Zpos n => binary_round prec emax s n 0
    | _ => S754_zero s
    end
  else
    let den := 10 ^ (- k) in
    let sh := Z.max 0 (Zdigits2 den - Zdigits2 (Zpos d) + 55) in
    let '(q, r) := Z.div_eucl (Z.shiftl (Zpos d) sh) den in
    binary_round_aux prec emax s q (- sh) (new_location den r).

Definition read_inf_nan (s : bool) (cs : list ascii) : option float :=
  let low := map to_lower cs in
  if chars_eqb low (chars "inf") || chars_eqb low (chars "infinity")
  then Some (S754_infinity s)
  else if chars_eqb low (chars "nan") then Some S754_nan
  else None.

(** [float(s)] for a string [s]: [None] stands for [ValueError]. *)
Definition float_of_string (s : string) : option float :=
  match strip_underscores None (strip (chars s)) with
  | None => None
  | Some cs =>
      let '(neg, body) := read_sign cs in
      match read_decimal body with
      | Some (Zpos d, k) => Some (round_decimal neg d k)
      | Some (_, _) => Some (S754_zero neg)
      | None => read_inf_nan neg body
      end
  end.

(** [float(x)] where [x] is what [SBValue.GetValue()] gave: a string, or
    [None], on which [float] raises [TypeError]. *)
Definition py_float (x : option string) : Py float :=
  match x with
  | None => Raise TypeError
  | Some s =>
      match float_of_string s with
      | Some v => Return v
      | None => Raise ValueError
      end
  end.

(** *** [str(float)]

    [str] of a float is its [repr]: the shortest decimal text that reads
    back as the same float, printed in fixed notation while the decimal
    point lies within [-4 < decpt <= 16] and in exponent notation
    otherwise. *)

(** The float [m * 2^e] and the two ends of the interval of reals that
    round to it, all three as integers in units of [10^K]: the result is
    [(lo, v, hi, K)]. The interval reaches half a unit in the last place
    on either side, and a quarter only below a power of two. *)
Definition repr_interval (m : positive) (e : Z) : Z * Z * Z * Z :=
  let q := e - 2 in
  let F := if q <? 0 then 5 ^ (- q) else 2 ^ q in
  let narrow := Pos.eqb m (2 ^ 52) && (-1074 <? e) in
  ((4 * Zpos m - (if narrow then 1 else 2)) * F,
   4 * Zpos m * F,
   (4 * Zpos m + 2) * F,
   Z.min q 0).

Fixpoint num_digits_aux (fuel : nat) (x : Z) : Z :=
  match fuel with
  | O => 1
  | S f => if x <? 10 then 1 else 1 + num_digits_aux f (x / 10)
  end.

(** Number of decimal digits of [x > 0]. *)
Definition num_digits (x : Z) : Z :=
  num_digits_aux (Z.to_nat (Z.log2 x)) x.

(** With [n] digits: the multiples of [10^(T-n)] just below and just
    above [v]; whichever lies in the interval, the nearer one when both
    do (the even one on a tie). The search stops at the first [n] that
    has one. The ends of the interval count when [incl] holds, that is
    when the mantissa is even. *)
Fixpoint shortest (fuel : nat) (n T lo v hi : Z) (incl : bool) : Z * Z :=
  let k := T - n in
  let p := 10 ^ k in
  let c := v / p in
  let inside x :=
    if incl then (lo <=? x) && (x <=? hi) else (lo <? x) && (x <? hi) in
  let nearest :=
    match 2 * (v - c * p) ?= p with
    | Lt => c
    | Gt => c + 1
    | Eq => if Z.even c then c else c + 1
    end in
  match inside (c * p), inside ((c + 1) * p) with
  | true, true => (nearest, k)
  | true, false => (c, k)
  | false, true => (c + 1, k)
  | false, false =>
      match fuel with
      | S f => if k <=? 0 then (c, k) else shortest f (n + 1) T lo v hi incl
      | O => (nearest, k)
      end
  end.

Fixpoint drop_zeros (fuel : nat) (c k : Z) : Z * Z :=
  match fuel with
  | O => (c, k)
  | S f => if (c mod 10 =? 0) && (0 <? c) then drop_zeros f (c / 10) (k + 1)
           else (c, k)
  end.

(** The digits of the shortest text and [decpt], the position of the
    decimal point relative to the first digit. *)
Definition shortest_digits (m : positive) (e : Z) : Z * Z :=
  let '(lo, v, hi, K) := repr_interval m e in
  let '(c, k) := shortest 16 1 (num_digits v) lo v hi (Z.even (Zpos m)) in
  let '(c', k') := drop_zeros 17 c k in
  (c', num_digits c' + k' + K).

Definition digit_char (d : Z) : ascii := ascii_of_N (Z.to_N (48 + d)).

Fixpoint digit_chars_aux (fuel : nat) (x : Z) (acc : list ascii)
  : list ascii :=
  match fuel with
  | O => digit_char (x mod 10) :: acc
  | S f =>
      if x <? 10 then digit_char x :: acc
      else digit_chars_aux f (x / 10) (digit_char (x mod 10) :: acc)
  end.

(** The decimal digits of [x >= 0], most significant first. *)
Definition digit_chars (x : Z) : list ascii :=
  digit_chars_aux (Z.to_nat (Z.log2 x)) x [].

Definition zeros (n : Z) : list ascii := repeat "0"%char (Z.to_nat n).

(** The exponent as [%+.02d] prints it. *)
Definition exponent_chars (x : Z) : list ascii :=
  let ds := digit_chars (Z.abs x) in
  (if x <? 0 then "-"%char else "+"%char)
    :: (if Z.abs x <? 10 then "0"%char :: ds else ds).

Definition format_digits (c decpt : Z) : list ascii :=
  let ds := digit_chars c in
  let len := Z.of_nat (List.length ds) in
  if (decpt <=? -4) || (16 <? decpt) then
    match ds with
    | d :: [] => d :: "e"%char :: exponent_chars (decpt - 1)
    | d :: tl =>
        (d :: "."%char :: tl ++ "e"%char :: exponent_chars (decpt - 1))%list
    | [] => "e"%char :: exponent_chars (decpt - 1)
    end
  else if decpt <=? 0 then
    ("0"%char :: "."%char :: zeros (- decpt) ++ ds)%list
  else if decpt <? len then
    (firstn (Z.to_nat decpt) ds ++ "."%char :: skipn (Z.to_nat decpt) ds)%list
  else
    (ds ++ zeros (decpt - len) ++ [ "."%char; "0"%char ])%list.

Definition float_repr (x : float) : string :=
  match x with
  | S754_nan => "nan"
  | S754_infinity s => if s then "-inf" else "inf"
  | S754_zero s => if s then "-0.0" else "0.0"
  | S754_finite s m e =>
      let '(c, decpt) := shortest_digits m e in
      (if s then "-" else "") ++ string_of_list_ascii (format_digits c decpt)
  end.

(** [str(v)], as an f-string field [{v}] renders a float. *)
Definition py_str (v : float) : string := float_repr v.

(** [float(n)] for a small integer [n], to name the float constants. *)
Definition float_of_int (n : Z) : float := binary_normalize prec emax n 0 false.

(* ================================================================== *)
(** ** The debugger's reflection API *)
(* ================================================================== *)

(** What the script uses of [lldb.SBValue]. The API never raises: a
    lookup that finds nothing gives back an invalid [SBValue], and an
    invalid value has no displayed value ([GetValue()] is [None]). The
    three laws are the part of that contract the inspector relies on. *)
Class Debugger : Type := {
  SBValue : Type;
  SBData : Type;
  SBType : Type;
  IsValid : SBValue -> bool;
  GetName : SBValue -> option string;
  GetValue : SBValue -> option string;
  GetNonSyntheticValue : SBValue -> SBValue;
  GetChildMemberWithName : SBValue -> string -> SBValue;
  GetData : SBValue -> SBData;
  GetType : SBValue -> SBType;
  CreateValueFromData : SBValue -> string -> SBData -> SBType -> SBValue;

  GetChildMemberWithName_invalid :
    forall v n, IsValid v = false ->
                IsValid (GetChildMemberWithName v n) = false;
  GetValue_invalid :
    forall v, IsValid v = false -> GetValue v = None;
  GetName_CreateValueFromData :
    forall v n d t,
      n <> "" ->
      IsValid (CreateValueFromData v n d t) = true ->
      GetName (CreateValueFromData v n d t) = Some n
}.

(* ================================================================== *)
(** ** class Quaternion *)
(* ================================================================== *)

Module Quaternion.
Section Provider.
Context {dbg : Debugger}.

(** The attributes of a provider object. *)
Record t : Type := {
  valobj : SBValue;
  w : SBValue;
  i : SBValue;
  j : SBValue;
  k : SBValue
}.

(** [update(self)]: binds the four components from [self.valobj]. *)
Definition update (self_valobj : SBValue) : Py t :=
  let vec := GetChildMemberWithName self_valobj "0" in
  Return {| valobj := self_valobj;
            w := GetChildMemberWithName vec "x";
            i := GetChildMemberWithName vec "y";
            j := GetChildMemberWithName vec "z";
            k := GetChildMemberWithName vec "w" |}.

(** [__init__(self, valobj, internal_dict)]: [self.valobj = valobj],
    then [self.update()]. [internal_dict] is never read. *)
Definition __init__ (valobj : SBValue) : Py t := update valobj.

Definition num_children (self : t) : Py Z := Return 4.

Definition get_child_at_index (self : t) (index : Z)
  : Py (option SBValue) :=
  if (index <? 0) || (4 <=? index) then Return None
  else
    try_except
      (if index =? 0 then
         Return (Some (CreateValueFromData (w self) "w"
                         (GetData (w self)) (GetType (w self))))
       else if index =? 1 then
         Return (Some (CreateValueFromData (i self) "i"
                         (GetData (i self)) (GetType (i self))))
       else if index =? 2 then
         Return (Some (CreateValueFromData (j self) "j"
                         (GetData (j self)) (GetType (j self))))
       else if index =? 3 then
         Return (Some (CreateValueFromData (k self) "k"
                         (GetData (k self)) (GetType (k self))))
       else Return None)
      (Return None).

Definition get_child_index (name : string) : Py Z :=
  if String.eqb name "w" then Return 0
  else if String.eqb name "i" then Return 1
  else if String.eqb name "j" then Return 2
  else if String.eqb name "k" then Return 3
  else Return (-1).

End Provider.
End Quaternion.

(* ================================================================== *)
(** ** quaternion_summary *)
(* ================================================================== *)

Section Summary.
Context {dbg : Debugger}.

(** A term of the polynomial: the value and its suffix. *)
Definition term : Type := (float * string)%type.

(** One turn of the loop [for v, name in [w, i, j, k]], as a function
    from [result] before the turn to [result] after it. *)
Definition summary_step (result : string) (t : term) : string :=
  let '(v, name) := t in
  if float_eq_0 v then result
  else
    let space := if negb (String.eqb result "") then " " else "" in
    let result :=
      if float_lt_0 v then result ++ space ++ "-"
      else if negb (String.eqb result "") then result ++ space ++ "+"
      else result in
    result ++ space ++ py_str (float_abs v) ++ name.

Definition quaternion_summary (valobj : SBValue) : Py string :=
  try_except
    (let real_valobj := GetNonSyntheticValue valobj in
     q <- Quaternion.__init__ real_valobj ;;
     w <- py_float (GetValue (Quaternion.w q)) ;;
     i <- py_float (GetValue (Quaternion.i q)) ;;
     j <- py_float (GetValue (Quaternion.j q)) ;;
     k <- py_float (GetValue (Quaternion.k q)) ;;
     let result :=
       fold_left summary_step [(w, ""); (i, "i"); (j, "j"); (k, "k")] "" in
     if String.eqb result "" then Return "0"
     else Return result)
    (Return "Quaternion(err)").

End Summary.

(* ================================================================== *)
(** ** The rendering, as the specification words it *)
(* ================================================================== *)

Fixpoint concat_all (ls : list string) : string :=
  match ls with
  | [] => ""
  | s :: ls' => s ++ concat_all ls'
  end.

(** The terms that are shown: those whose value is not [0]. *)
Definition emitted (ts : list term) : list term :=
  filter (fun t => negb (float_eq_0 (fst t))) ts.

(** The first shown term: a minus sign if negative, no plus sign. *)
Definition first_term (t : term) : string :=
  (if float_lt_0 (fst t) then "-" else "")
    ++ py_str (float_abs (fst t)) ++ snd t.

(** Any later term: a space, the sign, a space, the absolute value and
    the suffix. *)
Definition next_term (t : term) : string :=
  " " ++ (if float_lt_0 (fst t) then "-" else "+") ++ " "
    ++ py_str (float_abs (fst t)) ++ snd t.

Definition polynomial (ts : list term) : string :=
  match ts with
  | [] => "0"
  | t :: ts' => first_term t ++ concat_all (map next_term ts')
  end.

(** The first character of a text, if it has one. *)
Definition leading (s : string) : option ascii :=
  match s with
  | EmptyString => None
  | String c _ => Some c
  end.

(** A character that is neither sign. *)
Definition plain (c : ascii) : Prop := c <> "+"%char /\ c <> "-"%char.

Section Reading.
Context {dbg : Debugger}.

(** The four terms [quaternion_summary] builds when every component
    reads as a float. *)
Definition terms (w i j k : float) : list term :=
  [(w, ""); (i, "i"); (j, "j"); (k, "k")].

(** The four components of [valobj] read successfully, as the floats
    [w], [i], [j], [k]. *)
Definition reads (valobj : SBValue) (w i j k : float) : Prop :=
  exists q,
    Quaternion.__init__ (GetNonSyntheticValue valobj) = Return q /\
    py_float (GetValue (Quaternion.w q)) = Return w /\
    py_float (GetValue (Quaternion.i q)) = Return i /\
    py_float (GetValue (Quaternion.j q)) = Return j /\
    py_float (GetValue (Quaternion.k q)) = Return k.

(** The member ["0"] of a value and its sub-field [f]. *)
Definition field (valobj : SBValue) (f : string) : SBValue :=
  GetChildMemberWithName (GetChildMemberWithName valobj "0") f.

(** Extraction or parsing fails somewhere: the member ["0"] is
    missing, or one of its four sub-fields is missing, shows no value,
    or shows one that [float] rejects. *)
Definition extraction_fails (valobj : SBValue) : Prop :=
  let real_valobj := GetNonSyntheticValue valobj in
  IsValid (GetChildMemberWithName real_valobj "0") = false \/
  exists f, In f ["x"; "y"; "z"; "w"] /\
    (IsValid (field real_valobj f) = false \/
     raises (py_float (GetValue (field real_valobj f)))).

(** The value the provider asks the debugger for as the child [label]
    of the component [c]: built from the component's own data and
    type. *)
Definition child_of (c : SBValue) (label : string) : SBValue :=
  CreateValueFromData c label (GetData c) (GetType c).

(** A well-formed quaternion value: the debugger can expose each of
    the four sub-fields of its member ["0"] as a named value. *)
Definition well_formed (valobj : SBValue) : Prop :=
  forall f, In f ["x"; "y"; "z"; "w"] ->
    forall n, n <> "" -> IsValid (child_of (field valobj f) n) = true.

End Reading.

(* ================================================================== *)
(** ** A reference debugger: values as trees of named members *)
(* ================================================================== *)

#[warnings="-register-all"]
Inductive tree : Type :=
  | Absent
  | Node (name : string) (value : option string) (members : list tree).

Definition tree_valid (v : tree) : bool :=
  match v with Absent => false | Node _ _ _ => true end.

Definition tree_name (v : tree) : option string :=
  match v with Absent => None | Node n _ _ => Some n end.

Definition tree_value (v : tree) : option string :=
  match v with Absent => None | Node _ x _ => x end.

Fixpoint lookup (n : string) (ms : list tree) : tree :=
  match ms with
  | [] => Absent
  | Absent :: ms' => lookup n ms'
  | Node n' x sub :: ms' =>
      if String.eqb n' n then Node n' x sub else lookup n ms'
  end.

Definition tree_member (v : tree) (n : string) : tree :=
  match v with Absent => Absent | Node _ _ ms => lookup n ms end.

(** The data of a value is the text it shows; there is one type. *)
Definition tree_create (v : tree) (n : string) (d : option string) (t : unit)
  : tree :=
  match v with Absent => Absent | Node _ _ _ => Node n d [] end.

Definition tree_debugger : Debugger :=
  {| SBValue := tree;
     SBData := option string;
     SBType := unit;
     IsValid := tree_valid;
     GetName := tree_name;
     GetValue := tree_value;
     GetNonSyntheticValue := fun v => v;
     GetChildMemberWithName := tree_member;
     GetData := tree_value;
     GetType := fun _ => tt;
     CreateValueFromData := tree_create;
     GetChildMemberWithName_invalid :=
       ltac:(intros [|] ? ?; [reflexivity | discriminate]);
     GetValue_invalid :=
       ltac:(intros [|] ?; [reflexivity | discriminate]);
     GetName_CreateValueFromData :=
       ltac:(intros [|] ? ? ? ? ?; [discriminate | reflexivity]) |}.

(** A quaternion in the inspected process: a tuple struct around a
    four-float vector, each float shown as text. *)
Definition tree_quaternion (x y z w : option string) : tree :=
  Node "q" None
    [Node "0" None
       [Node "x" x []; Node "y" y []; Node "z" z []; Node "w" w []]].

(** A value whose debug information is stripped: no member ["0"]. *)
Definition stripped : tree := Node "q" None [].

(** The quaternions (0,0,0,0), (1,0,0,0), (0,-2,0,0) and (1,2,0,-3). *)
Definition q_0_0_0_0 : tree :=
  tree_quaternion (Some "0") (Some "0") (Some "0") (Some "0").
Definition q_1_0_0_0 : tree :=
  tree_quaternion (Some "1") (Some "0") (Some "0") (Some "0").
Definition q_0_m2_0_0 : tree :=
  tree_quaternion (Some "0") (Some "-2") (Some "0") (Some "0").
Definition q_1_2_0_m3 : tree :=
  tree_quaternion (Some "1") (Some "2") (Some "0") (Some "-3").

(* ================================================================== *)
(** ** Values at addresses: the API the vector and matrix printers use *)
(* ================================================================== *)

(** [str(n)] of an integer. *)
Definition py_str_int (n : Z) : string :=
  (if n <? 0 then "-" else "") ++ string_of_list_ascii (digit_chars (Z.abs n)).

(** An f-string field [{x}] where [x] is what [GetValue()] gave: the
    text itself, or ["None"]. *)
Definition py_format_value (x : option string) : string :=
  match x with
  | Some s => s
  | None => "None"
  end.

(** The rest of the API: the target and its types, reading a member as
    an unsigned integer, and building a value at an address. The address
    is a Python integer handed to a C parameter, and the binding raises
    when it does not fit; so [CreateValueFromAddress] is a computation
    that may raise, and nothing is assumed about when it does. *)
Class Target {dbg : Debugger} : Type := {
  SBTarget : Type;
  GetTarget : SBValue -> SBTarget;
  FindFirstType : SBTarget -> string -> SBType;
  GetArrayType : SBType -> Z -> SBType;
  GetValueAsUnsigned : SBValue -> Z;
  CreateValueFromAddress : SBValue -> string -> Z -> SBType -> Py SBValue
}.

Section AtAddress.
Context {dbg : Debugger} {tgt : Target}.

(** The type the printers look up: [GetTarget().FindFirstType("float")]. *)
Definition float_type (valobj : SBValue) : SBType :=
  FindFirstType (GetTarget valobj) "float".

(** The float the debugger shows at [addr], under the name [label];
    [None] when the call raises. *)
Definition float_at (valobj : SBValue) (label : string) (addr : Z)
  : Py (option SBValue) :=
  try_except
    (c <- CreateValueFromAddress valobj label addr (float_type valobj) ;;
     Return (Some c))
    (Return None).

(** The pointer and the length a vector or matrix value shows. *)
Definition shown_data_ptr (valobj : SBValue) : Z :=
  GetValueAsUnsigned (GetChildMemberWithName valobj "data_ptr").

Definition shown_length (valobj : SBValue) : Z :=
  GetValueAsUnsigned (GetChildMemberWithName valobj "length").

(** One of the reads of a summary raises: [fields] lists the names and
    offsets it reads. *)
Definition some_read_raises (valobj : SBValue) (fields : list (string * Z))
  : Prop :=
  exists label off,
    In (label, off) fields /\
    raises (CreateValueFromAddress valobj label
              (shown_data_ptr valobj + off) (float_type valobj)).

End AtAddress.

(* ================================================================== *)
(** ** class Vec2, vec2_summary (vec2.py) *)
(* ================================================================== *)

Module Vec2.
Section Provider.
Context {dbg : Debugger} {tgt : Target}.

Record t : Type := {
  valobj : SBValue;
  data_ptr : Z;
  length : Z
}.

Definition update (self_valobj : SBValue) : Py t :=
  Return {| valobj := self_valobj;
            data_ptr := GetValueAsUnsigned
                          (GetChildMemberWithName self_valobj "data_ptr");
            length := GetValueAsUnsigned
                        (GetChildMemberWithName self_valobj "length") |}.

Definition __init__ (valobj : SBValue) : Py t := update valobj.

Definition num_children (self : t) : Py Z := Return (length self).

Definition get_child_at_index (self : t) (index : Z)
  : Py (option SBValue) :=
  if (index <? 0) || (3 <=? index) then Return None
  else if data_ptr self =? 0 then Return None
  else
    try_except
      (let offset := index * 4 in
       let target_type := FindFirstType (GetTarget (valobj self)) "float" in
       let ptr := data_ptr self + offset in
       if index =? 0 then
         c <- CreateValueFromAddress (valobj self) "x" ptr target_type ;;
         Return (Some c)
       else if index =? 1 then
         c <- CreateValueFromAddress (valobj self) "y" ptr target_type ;;
         Return (Some c)
       else Return None)
      (Return None).

Definition get_child_index (name : string) : Py Z :=
  if String.eqb name "x" then Return 0
  else if String.eqb name "y" then Return 1
  else if String.eqb name "z" then Return 2
  else Return (-1).

End Provider.
End Vec2.

Section Vec2Summary.
Context {dbg : Debugger} {tgt : Target}.

Definition vec2_summary (valobj : SBValue) : Py string :=
  try_except
    (let real_valobj := GetNonSyntheticValue valobj in
     vec <- Vec2.__init__ real_valobj ;;
     if Vec2.data_ptr vec =? 0 then Return "Vec2(null)"
     else if negb (Vec2.length vec =? 2) then Return "Vec2(?)"
     else
       let target_type := FindFirstType (GetTarget real_valobj) "float" in
       let ptr := Vec2.data_ptr vec in
       cx <- CreateValueFromAddress real_valobj "x" (ptr + 0) target_type ;;
       let x := GetValue cx in
       cy <- CreateValueFromAddress real_valobj "y" (ptr + 4) target_type ;;
       let y := GetValue cy in
       Return ("{x:" ++ py_format_value x ++ ", y:" ++ py_format_value y
                 ++ "}"))
    (Return "Vec2(err)").

End Vec2Summary.

(* ================================================================== *)
(** ** class Vec3, vec3_summary (vec3.py) *)
(* ================================================================== *)

Module Vec3.
Section Provider.
Context {dbg : Debugger} {tgt : Target}.

Record t : Type := {
  valobj : SBValue;
  data_ptr : Z;
  length : Z
}.

Definition update (self_valobj : SBValue) : Py t :=
  Return {| valobj := self_valobj;
            data_ptr := GetValueAsUnsigned
                          (GetChildMemberWithName self_valobj "data_ptr");
            length := GetValueAsUnsigned
                        (GetChildMemberWithName self_valobj "length") |}.

Definition __init__ (valobj : SBValue) : Py t := update valobj.

Definition num_children (self : t) : Py Z := Return (length self).

Definition get_child_at_index (self : t) (index : Z)
  : Py (option SBValue) :=
  if (index <? 0) || (3 <=? index) then Return None
  else if data_ptr self =? 0 then Return None
  else
    try_except
      (let offset := index * 4 in
       let target_type := FindFirstType (GetTarget (valobj self)) "float" in
       let ptr := data_ptr self + offset in
       if index =? 0 then
         c <- CreateValueFromAddress (valobj self) "x" ptr target_type ;;
         Return (Some c)
       else if index =? 1 then
         c <- CreateValueFromAddress (valobj self) "y" ptr target_type ;;
         Return (Some c)
       else if index =? 2 then
         c <- CreateValueFromAddress (valobj self) "z" ptr target_type ;;
         Return (Some c)
       else Return None)
      (Return None).

Definition get_child_index (name : string) : Py Z :=
  if String.eqb name "x" then Return 0
  else if String.eqb name "y" then Return 1
  else if String.eqb name "z" then Return 2
  else Return (-1).

End Provider.
End Vec3.

Section Vec3Summary.
Context {dbg : Debugger} {tgt : Target}.

Definition vec3_summary (valobj : SBValue) : Py string :=
  try_except
    (let real_valobj := GetNonSyntheticValue valobj in
     vec <- Vec3.__init__ real_valobj ;;
     if Vec3.data_ptr vec =? 0 then Return "Vec3(null)"
     else if negb (Vec3.length vec =? 3) then Return "Vec3(?)"
     else
       let target_type := FindFirstType (GetTarget real_valobj) "float" in
       let ptr := Vec3.data_ptr vec in
       cx <- CreateValueFromAddress real_valobj "x" (ptr + 0) target_type ;;
       let x := GetValue cx in
       cy <- CreateValueFromAddress real_valobj "y" (ptr + 4) target_type ;;
       let y := GetValue cy in
       cz <- CreateValueFromAddress real_valobj "z" (ptr + 8) target_type ;;
       let z := GetValue cz in
       Return ("{x:" ++ py_format_value x ++ ", y:" ++ py_format_value y
                 ++ ", z:" ++ py_format_value z ++ "}"))
    (Return "Vec3(err)").

End Vec3Summary.

(* ================================================================== *)
(** ** class Vec4, vec4_summary (vec4.py) *)
(* ================================================================== *)

Module Vec4.
Section Provider.
Context {dbg : Debugger} {tgt : Target}.

Record t : Type := {
  valobj : SBValue;
  data_ptr : Z;
  length : Z
}.

Definition update (self_valobj : SBValue) : Py t :=
  Return {| valobj := self_valobj;
            data_ptr := GetValueAsUnsigned
                          (GetChildMemberWithName self_valobj "data_ptr");
            length := GetValueAsUnsigned
                        (GetChildMemberWithName self_valobj "length") |}.

Definition __init__ (valobj : SBValue) : Py t := update valobj.

Definition num_children (self : t) : Py Z := Return (length self).

Definition get_child_at_index (self : t) (index : Z)
  : Py (option SBValue) :=
  if (index <? 0) || (4 <=? index) then Return None
  else if data_ptr self =? 0 then Return None
  else
    try_except
      (let offset := index * 4 in
       let target_type := FindFirstType (GetTarget (valobj self)) "float" in
       let ptr := data_ptr self + offset in
       if index =? 0 then
         c <- CreateValueFromAddress (valobj self) "x" ptr target_type ;;
         Return (Some c)
       else if index =? 1 then
         c <- CreateValueFromAddress (valobj self) "y" ptr target_type ;;
         Return (Some c)
       else if index =? 2 then
         c <- CreateValueFromAddress (valobj self) "z" ptr target_type ;;
         Return (Some c)
       else if index =? 3 then
         c <- CreateValueFromAddress (valobj self) "w" ptr target_type ;;
         Return (Some c)
       else Return None)
      (Return None).

Definition get_child_index (name : string) : Py Z :=
  if String.eqb name "x" then Return 0
  else if String.eqb name "y" then Return 1
  else if String.eqb name "z" then Return 2
  else if String.eqb name "w" then Return 3
  else Return (-1).

End Provider.
End Vec4.

Section Vec4Summary.
Context {dbg : Debugger} {tgt : Target}.

Definition vec4_summary (valobj : SBValue) : Py string :=
  try_except
    (let real_valobj := GetNonSyntheticValue valobj in
     vec <- Vec4.__init__ real_valobj ;;
     if Vec4.data_ptr vec =? 0 then Return "Vec4(null)"
     else if negb (Vec4.length vec =? 4) then Return "Vec4(?)"
     else
       let target_type := FindFirstType (GetTarget real_valobj) "float" in
       let ptr := Vec4.data_ptr vec in
       cx <- CreateValueFromAddress real_valobj "x" (ptr + 0) target_type ;;
       let x := GetValue cx in
       cy <- CreateValueFromAddress real_valobj "y" (ptr + 4) target_type ;;
       let y := GetValue cy in
       cz <- CreateValueFromAddress real_valobj "z" (ptr + 8) target_type ;;
       let z := GetValue cz in
       cw <- CreateValueFromAddress real_valobj "w" (ptr + 12) target_type ;;
       let w := GetValue cw in
       Return ("{x:" ++ py_format_value x ++ ", y:" ++ py_format_value y
                 ++ ", z:" ++ py_format_value z
                 ++ ", w:" ++ py_format_value w ++ "}"))
    (Return "Vec4(err)").

End Vec4Summary.

(* ================================================================== *)
(** ** class Mat4, mat4_summary (mat4.py) *)
(* ================================================================== *)

Definition LENGTH : Z := 16.

Module Mat4.
Section Provider.
Context {dbg : Debugger} {tgt : Target}.

Record t : Type := {
  valobj : SBValue;
  data_ptr : Z;
  length : Z
}.

Definition update (self_valobj : SBValue) : Py t :=
  Return {| valobj := self_valobj;
            data_ptr := GetValueAsUnsigned
                          (GetChildMemberWithName self_valobj "data_ptr");
            length := GetValueAsUnsigned
                        (GetChildMemberWithName self_valobj "length") |}.

Definition __init__ (valobj : SBValue) : Py t := update valobj.

Definition num_children (self : t) : Py Z :=
  Return (if length self =? LENGTH then 4 else 0).

(** The test is [index >= 0 or index < 4], and there is no [try]. *)
Definition get_child_at_index (self : t) (index : Z)
  : Py (option SBValue) :=
  if (0 <=? index) || (index <? 4) then
    let target_type := FindFirstType (GetTarget (valobj self)) "float" in
    let array_type := GetArrayType target_type 4 in
    let offset := index * 4 * 4 in
    let ptr := data_ptr self + offset in
    c <- CreateValueFromAddress (valobj self)
           ("[" ++ py_str_int index ++ "]") ptr array_type ;;
    Return (Some c)
  else Return None.

Definition get_child_index (name : string) : Py Z :=
  if String.eqb name "[0]" then Return 0
  else if String.eqb name "[1]" then Return 1
  else if String.eqb name "[2]" then Return 2
  else if String.eqb name "[3]" then Return 3
  else Return (-1).

End Provider.
End Mat4.

Definition mat4_summary {dbg : Debugger} (valobj : SBValue) : Py string :=
  Return "Mat4(...)".

(* ================================================================== *)
(** ** class Color, color_summary (color.py) *)
(* ================================================================== *)

Module Color.
Section Provider.
Context {dbg : Debugger}.

Record t : Type := {
  valobj : SBValue;
  r : SBValue;
  g : SBValue;
  b : SBValue;
  a : SBValue
}.

Definition update (self_valobj : SBValue) : Py t :=
  let vec := GetChildMemberWithName self_valobj "0" in
  Return {| valobj := self_valobj;
            r := GetChildMemberWithName vec "x";
            g := GetChildMemberWithName vec "y";
            b := GetChildMemberWithName vec "z";
            a := GetChildMemberWithName vec "w" |}.

Definition __init__ (valobj : SBValue) : Py t := update valobj.

Definition num_children (self : t) : Py Z := Return 4.

Definition get_child_at_index (self : t) (index : Z)
  : Py (option SBValue) :=
  if (index <? 0) || (4 <=? index) then Return None
  else
    try_except
      (if index =? 0 then
         Return (Some (CreateValueFromData (r self) "r"
                         (GetData (r self)) (GetType (r self))))
       else if index =? 1 then
         Return (Some (CreateValueFromData (g self) "g"
                         (GetData (g self)) (GetType (g self))))
       else if index =? 2 then
         Return (Some (CreateValueFromData (b self) "b"
                         (GetData (b self)) (GetType (b self))))
       else if index =? 3 then
         Return (Some (CreateValueFromData (a self) "a"
                         (GetData (a self)) (GetType (a self))))
       else Return None)
      (Return None).

Definition get_child_index (name : string) : Py Z :=
  if String.eqb name "r" then Return 0
  else if String.eqb name "g" then Return 1
  else if String.eqb name "b" then Return 2
  else if String.eqb name "a" then Return 3
  else Return (-1).

End Provider.
End Color.

(** The exceptions color.py can meet: those of [float()], and
    [OverflowError], which [int()] raises on an infinity. *)
Inductive color_exn : Type :=
  | Exn (e : exn)
  | OverflowError.

(** A computation of color.py: a value, or one of these exceptions. *)
Inductive PyC (A : Type) : Type :=
  | ReturnC (a : A)
  | RaiseC (e : color_exn).

Arguments ReturnC {A} a.
Arguments RaiseC {A} e.

Definition bindC {A B : Type} (c : PyC A) (k : A -> PyC B) : PyC B :=
  match c with
  | ReturnC a => k a
  | RaiseC e => RaiseC e
  end.

Definition of_py {A : Type} (c : Py A) : PyC A :=
  match c with
  | Return a => ReturnC a
  | Raise e => RaiseC (Exn e)
  end.

(** [try: body / except: handler], the bare [except] again. *)
Definition try_exceptC {A : Type} (body : PyC A) (handler : Py A) : Py A :=
  match body with
  | ReturnC a => Return a
  | RaiseC _ => handler
  end.

(** [v * 255] on a float: the product rounded to binary64. *)
Definition float_times_255 (v : float) : float :=
  SFmul prec emax v (float_of_int 255).

(** [int(v)] on a float: the value cut towards zero; [ValueError] on a
    nan, [OverflowError] on an infinity. *)
Definition py_int (v : float) : PyC Z :=
  match v with
  | S754_nan => RaiseC (Exn ValueError)
  | S754_infinity _ => RaiseC OverflowError
  | S754_zero _ => ReturnC 0
  | S754_finite s m e =>
      let n := if 0 <=? e then Zpos m * 2 ^ e else Zpos m / 2 ^ (- e) in
      ReturnC (if s then - n else n)
  end.

Definition hex_char (d : Z) : ascii :=
  ascii_of_N (Z.to_N (if d <? 10 then 48 + d else 55 + d)).

Fixpoint hex_chars_aux (fuel : nat) (x : Z) (acc : list ascii)
  : list ascii :=
  match fuel with
  | O => hex_char (x mod 16) :: acc
  | S f =>
      if x <? 16 then hex_char x :: acc
      else hex_chars_aux f (x / 16) (hex_char (x mod 16) :: acc)
  end.

(** The hexadecimal digits of [x >= 0], upper case, most significant
    first. *)
Definition hex_chars (x : Z) : list ascii :=
  hex_chars_aux (Z.to_nat (Z.log2 x)) x [].

(** The format field [{:02X}] on an integer: upper-case hexadecimal,
    padded with zeros after the sign up to a width of 2. *)
Definition format_02X (n : Z) : string :=
  let sign := if n <? 0 then [ "-"%char ] else [] in
  let ds := hex_chars (Z.abs n) in
  let pad := 2 - Z.of_nat (List.length sign) - Z.of_nat (List.length ds) in
  string_of_list_ascii (sign ++ zeros pad ++ ds)%list.

(** A byte as two upper-case hexadecimal digits. *)
Definition byte_text (n : Z) : string :=
  String (hex_char (n / 16)) (String (hex_char (n mod 16)) "").

Section ColorSummary.
Context {dbg : Debugger}.

(** [int(float(x) * 255)] for what [GetValue()] gave. *)
Definition channel (x : option string) : PyC Z :=
  bindC (of_py (py_float x)) (fun v => py_int (float_times_255 v)).

Definition color_summary (valobj : SBValue) : Py string :=
  try_exceptC
    (let real_valobj := GetNonSyntheticValue valobj in
     bindC (of_py (Color.__init__ real_valobj)) (fun color =>
     bindC (channel (GetValue (Color.r color))) (fun r =>
     bindC (channel (GetValue (Color.g color))) (fun g =>
     bindC (channel (GetValue (Color.b color))) (fun b =>
     bindC (channel (GetValue (Color.a color))) (fun a =>
     ReturnC ("#" ++ format_02X r ++ format_02X g
                  ++ format_02X b ++ format_02X a)))))))
    (Return "Color(...)").

End ColorSummary.

(* ================================================================== *)
(** ** The reference debugger, with a memory *)
(* ================================================================== *)

(** The unsigned integer a member shows, 0 when it shows none. *)
Definition tree_unsigned (v : tree) : Z :=
  match tree_value v with
  | Some s =>
      match read_digits (chars s) 0 0 with
      | (n, k, []) => if 0 <? k then n mod 2 ^ 64 else 0
      | _ => 0
      end
  | None => 0
  end.

(** Four floats stored from address 4096 on; nothing elsewhere. *)
Definition tree_memory (addr : Z) : option string :=
  if addr =? 4096 then Some "1.5"
  else if addr =? 4100 then Some "-2"
  else if addr =? 4104 then Some "0.25"
  else if addr =? 4108 then Some "8"
  else None.

(** A value at an address; an address outside 64 bits is refused. *)
Definition tree_at (v : tree) (n : string) (addr : Z) (t : unit) : Py tree :=
  if (0 <=? addr) && (addr <? 2 ^ 64) then
    Return (match v with
            | Absent => Absent
            | Node _ _ _ => Node n (tree_memory addr) []
            end)
  else Raise TypeError.

Definition tree_target : @Target tree_debugger :=
  @Build_Target tree_debugger unit
    (fun _ => tt) (fun _ _ => tt) (fun _ _ => tt) tree_unsigned tree_at.

(** A vector or matrix in the inspected process: a pointer and a
    length. *)
Definition tree_vector (ptr len : string) : tree :=
  Node "v" None [Node "data_ptr" (Some ptr) []; Node "length" (Some len) []].

(** A color in the inspected process, laid out like a quaternion. *)
Definition tree_color (x y z w : option string) : tree :=
  tree_quaternion x y z w.

(* ================================================================== *)
(** ** Texts *)
(* ================================================================== *)

Lemma append_assoc (a b c : string) : (a ++ b) ++ c = a ++ b ++ c.
Proof.
  induction a as [|x a IH]; simpl; [reflexivity | now rewrite IH].
Qed.

Lemma append_nonempty_l (a b : string) : a <> "" -> a ++ b <> "".
Proof.
  destruct a; simpl; [congruence | discriminate].
Qed.

Lemma append_nonempty_r (a b : string) : b <> "" -> a ++ b <> "".
Proof.
  destruct a; simpl; [auto | discriminate].
Qed.

Lemma eqb_empty_false (s : string) : s <> "" -> String.eqb s "" = false.
Proof.
  intros H. apply String.eqb_neq. exact H.
Qed.

Lemma leading_append (a b : string) :
  a <> "" -> leading (a ++ b) = leading a.
Proof.
  destruct a; simpl; [congruence | reflexivity].
Qed.

Lemma string_of_list_ascii_nonempty (cs : list ascii) :
  cs <> [] -> string_of_list_ascii cs <> "".
Proof.
  destruct cs; simpl; [congruence | discriminate].
Qed.

Lemma leading_string_of_list_ascii (cs : list ascii) :
  leading (string_of_list_ascii cs) = hd_error cs.
Proof.
  destruct cs; reflexivity.
Qed.

(* ================================================================== *)
(** ** The text of a float *)
(* ================================================================== *)

(** The float model on values whose Python results are well known. *)
Example float_of_tenth :
  float_of_string "0.1" = Some (S754_finite false 7205759403792794 (-56)).
Proof. vm_compute. reflexivity. Qed.

Example float_of_tie_to_even :
  float_of_string "9007199254740993" = float_of_string "9007199254740992".
Proof. vm_compute. reflexivity. Qed.

Example float_of_texts :
  map float_of_string [" 1_000.5 "; "-Infinity"; "1e400"; "-0"; "5e-324"] =
  [Some (S754_finite false 8800491068719104 (-43));
   Some (S754_infinity true); Some (S754_infinity false);
   Some (S754_zero true); Some (S754_finite false 1 (-1074))].
Proof. vm_compute. reflexivity. Qed.

Example float_of_rejected :
  map float_of_string [""; "abc"; "1e"; "."; "1__0"; "_1"; "0x10"; "1 2"] =
  [None; None; None; None; None; None; None; None].
Proof. vm_compute. reflexivity. Qed.

Example float_repr_texts :
  map (fun s => option_map float_repr (float_of_string s))
      ["0.1"; "1"; "100"; "1e15"; "1e16"; "0.0001"; "0.00001";
       "3.14159274"; "0.30000000000000004"; "123456789012345678";
       "5e-324"; "1.7976931348623157e308"; "nan"; "-inf"] =
  map Some
      ["0.1"; "1.0"; "100.0"; "1000000000000000.0"; "1e+16"; "0.0001";
       "1e-05"; "3.14159274"; "0.30000000000000004";
       "1.2345678901234568e+17"; "5e-324"; "1.7976931348623157e+308";
       "nan"; "-inf"].
Proof. vm_compute. reflexivity. Qed.

Lemma digit_char_plain (d : Z) : 0 <= d <= 9 -> plain (digit_char d).
Proof.
  intros H.
  assert (d = 0 \/ d = 1 \/ d = 2 \/ d = 3 \/ d = 4 \/
          d = 5 \/ d = 6 \/ d = 7 \/ d = 8 \/ d = 9) as C by lia.
  repeat (destruct C as [C | C]; [subst d; split; discriminate |]).
  subst d; split; discriminate.
Qed.

Lemma digit_chars_aux_head (fuel : nat) :
  forall x acc, 0 <= x ->
    exists c tl, digit_chars_aux fuel x acc = c :: tl /\ plain c.
Proof.
  induction fuel as [|f IH]; intros x acc Hx; simpl.
  - exists (digit_char (x mod 10)), acc. split; [reflexivity |].
    apply digit_char_plain.
    pose proof (Z.mod_pos_bound x 10). lia.
  - destruct (x <? 10) eqn:E.
    + exists (digit_char x), acc. split; [reflexivity |].
      apply digit_char_plain. apply Z.ltb_lt in E. lia.
    + apply IH. apply Z.div_pos; lia.
Qed.

Lemma digit_chars_head (x : Z) :
  0 <= x -> exists c tl, digit_chars x = c :: tl /\ plain c.
Proof.
  intros H. unfold digit_chars. now apply digit_chars_aux_head.
Qed.

Lemma div_nonneg (a b : Z) : 0 <= a -> 0 <= b -> 0 <= a / b.
Proof.
  intros Ha Hb.
  destruct (Z.eq_dec b 0) as [-> | Hn].
  - now rewrite Z.div_0_r.
  - apply Z.div_pos; lia.
Qed.

Lemma shortest_nonneg (fuel : nat) :
  forall n T lo v hi incl, 0 <= v ->
    0 <= fst (shortest fuel n T lo v hi incl).
Proof.
  induction fuel as [|f IH]; intros n T lo v hi incl Hv;
    assert (0 <= v / 10 ^ (T - n)) as Hc
      by (apply div_nonneg; [exact Hv | apply Z.pow_nonneg; lia]);
    simpl;
    repeat match goal with
           | |- context [match ?b with _ => _ end] =>
               destruct b; simpl; try lia
           end.
  apply IH. exact Hv.
Qed.

Lemma drop_zeros_nonneg (fuel : nat) :
  forall c k, 0 <= c -> 0 <= fst (drop_zeros fuel c k).
Proof.
  induction fuel as [|f IH]; intros c k Hc; simpl; [exact Hc |].
  destruct ((c mod 10 =? 0) && (0 <? c)); simpl; [| exact Hc].
  apply IH. apply Z.div_pos; lia.
Qed.

Lemma shortest_digits_nonneg (m : positive) (e : Z) :
  0 <= fst (shortest_digits m e).
Proof.
  unfold shortest_digits, repr_interval.
  set (F := if e - 2 <? 0 then 5 ^ (- (e - 2)) else 2 ^ (e - 2)).
  assert (0 <= F) as HF
    by (unfold F; destruct (e - 2 <? 0); apply Z.pow_nonneg; lia).
  set (v := 4 * Z.pos m * F).
  assert (0 <= v) as Hv by (unfold v; nia).
  match goal with
  | |- context [shortest ?fu ?n ?T ?lo v ?hi ?incl] =>
      pose proof (shortest_nonneg fu n T lo hi incl Hv) as Hs;
      destruct (shortest fu n T lo v hi incl) as [c k]
  end.
  simpl in Hs.
  pose proof (@drop_zeros_nonneg 17 c k Hs) as Hd.
  destruct (drop_zeros 17 c k) as [c' k']. simpl in *. exact Hd.
Qed.

Lemma format_digits_head (c decpt : Z) :
  0 <= c -> exists x tl, format_digits c decpt = x :: tl /\ plain x.
Proof.
  intros Hc. unfold format_digits.
  destruct (digit_chars_head Hc) as (d & tl & -> & Hd).
  assert (plain "0"%char) as H0 by (split; discriminate).
  destruct ((decpt <=? -4) || (16 <? decpt)).
  - destruct tl; eauto.
  - destruct (decpt <=? 0) eqn:E0; [eauto |].
    apply Z.leb_gt in E0.
    destruct (decpt <? Z.of_nat (List.length (d :: tl))).
    + destruct (Z.to_nat decpt) eqn:En; [lia |]. simpl. eauto.
    + simpl. eauto.
Qed.

(** The text of [abs(v)] is never empty and starts with neither sign. *)
Lemma py_str_abs_leading (v : float) :
  exists c rest, py_str (float_abs v) = String c rest /\ plain c.
Proof.
  unfold py_str, float_abs.
  destruct v as [s | s | | s m e]; simpl.
  - exists "0"%char, ".0". split; [reflexivity | split; discriminate].
  - exists "i"%char, "nf". split; [reflexivity | split; discriminate].
  - exists "n"%char, "an". split; [reflexivity | split; discriminate].
  - pose proof (shortest_digits_nonneg m e) as Hc.
    destruct (shortest_digits m e) as [c decpt]. simpl in Hc.
    destruct (format_digits_head decpt Hc) as (x & tl & -> & Hx).
    simpl. eauto.
Qed.

Lemma py_str_abs_nonempty (v : float) : py_str (float_abs v) <> "".
Proof.
  destruct (py_str_abs_leading v) as (c & rest & -> & _). discriminate.
Qed.

Lemma first_term_nonempty (t : term) : first_term t <> "".
Proof.
  unfold first_term. apply append_nonempty_r, append_nonempty_l.
  apply py_str_abs_nonempty.
Qed.

(* ================================================================== *)
(** ** The loop of quaternion_summary *)
(* ================================================================== *)

(** Once [result] holds something, each further turn appends a later
    term, or nothing for a zero. *)
Lemma step_after (result : string) (t : term) :
  result <> "" ->
  summary_step result t =
    if float_eq_0 (fst t) then result else result ++ next_term t.
Proof.
  intros H. destruct t as [v name]. unfold summary_step, next_term. simpl.
  destruct (float_eq_0 v); [reflexivity |].
  rewrite (eqb_empty_false H). simpl.
  destruct (float_lt_0 v); now rewrite !append_assoc.
Qed.

(** On an empty [result] a turn writes the first term, or nothing for a
    zero. *)
Lemma step_first (t : term) :
  summary_step "" t = if float_eq_0 (fst t) then "" else first_term t.
Proof.
  destruct t as [v name]. unfold summary_step, first_term. simpl.
  destruct (float_eq_0 v); [reflexivity |].
  destruct (float_lt_0 v); reflexivity.
Qed.

Lemma loop_after (ts : list term) :
  forall result, result <> "" ->
    fold_left summary_step ts result =
      result ++ concat_all (map next_term (emitted ts)).
Proof.
  induction ts as [|t ts IH]; intros result H; simpl.
  - clear H. induction result; simpl; congruence.
  - rewrite (step_after t H).
    destruct (float_eq_0 (fst t)); simpl.
    + now apply IH.
    + rewrite IH by now apply append_nonempty_l.
      now rewrite append_assoc.
Qed.

Lemma loop_from_empty (ts : list term) :
  fold_left summary_step ts "" =
    match emitted ts with
    | [] => ""
    | t :: ts' => first_term t ++ concat_all (map next_term ts')
    end.
Proof.
  induction ts as [|t ts IH]; simpl; [reflexivity |].
  rewrite step_first.
  destruct (float_eq_0 (fst t)); simpl; [exact IH |].
  apply loop_after, first_term_nonempty.
Qed.

Section SummaryFacts.
Context {dbg : Debugger}.

(** When the four components read, the summary is the polynomial of
    the shown terms. *)
Lemma summary_of_reads (valobj : SBValue) (w i j k : float) :
  reads valobj w i j k ->
  quaternion_summary valobj = Return (polynomial (emitted (terms w i j k))).
Proof.
  intros (q & Hq & Hw & Hi & Hj & Hk).
  unfold quaternion_summary. rewrite Hq. cbn [bind].
  rewrite Hw, Hi, Hj, Hk. cbn [bind].
  change [(w, ""); (i, "i"); (j, "j"); (k, "k")] with (terms w i j k).
  rewrite loop_from_empty. unfold polynomial.
  destruct (emitted (terms w i j k)) as [|t ts]; [reflexivity |].
  rewrite eqb_empty_false; [reflexivity |].
  apply append_nonempty_l, first_term_nonempty.
Qed.

(** The summary never raises. *)
Lemma summary_returns (valobj : SBValue) :
  returns (quaternion_summary valobj).
Proof.
  unfold quaternion_summary, try_except, returns.
  match goal with
  | |- exists a, match ?b with _ => _ end = _ => destruct b
  end; eauto.
Qed.

(** A failed read of any component gives the placeholder. *)
Lemma summary_of_failed_read (valobj : SBValue) (f : string) :
  In f ["x"; "y"; "z"; "w"] ->
  raises (py_float (GetValue (field (GetNonSyntheticValue valobj) f))) ->
  quaternion_summary valobj = Return "Quaternion(err)".
Proof.
  intros Hin [e He].
  unfold quaternion_summary, Quaternion.__init__, Quaternion.update.
  unfold field in He. simpl bind.
  simpl in Hin.
  destruct Hin as [<- | [<- | [<- | [<- | []]]]];
    repeat match goal with
           | |- context [py_float ?x] =>
               lazymatch goal with
               | H : py_float x = _ |- _ => rewrite H
               | |- _ => destruct (py_float x) eqn:?
               end; simpl
           end;
    try reflexivity; try congruence.
Qed.

(** Either the four components read, or the summary is the
    placeholder. *)
Lemma summary_cases (valobj : SBValue) :
  (exists w i j k, reads valobj w i j k) \/
  quaternion_summary valobj = Return "Quaternion(err)".
Proof.
  unfold reads, quaternion_summary, Quaternion.__init__, Quaternion.update.
  cbn [bind Quaternion.w Quaternion.i Quaternion.j Quaternion.k].
  set (vec := GetChildMemberWithName (GetNonSyntheticValue valobj) "0").
  destruct (py_float (GetValue (GetChildMemberWithName vec "x")))
    as [w | ?] eqn:Hw; cbn [bind]; [| now right].
  destruct (py_float (GetValue (GetChildMemberWithName vec "y")))
    as [i | ?] eqn:Hi; cbn [bind]; [| now right].
  destruct (py_float (GetValue (GetChildMemberWithName vec "z")))
    as [j | ?] eqn:Hj; cbn [bind]; [| now right].
  destruct (py_float (GetValue (GetChildMemberWithName vec "w")))
    as [k | ?] eqn:Hk; cbn [bind]; [| now right].
  left. exists w, i, j, k. eexists. split; [reflexivity |]. simpl.
  fold vec. auto.
Qed.

End SummaryFacts.

(* ================================================================== *)
(** ** Properties of the inspector *)
(* ================================================================== *)

Section Inspector.
Context {dbg : Debugger}.

(** C1. Whatever the inspected value, [quaternion_summary] returns a
    text and raises nothing. When extraction or parsing fails at any
    step (the member ["0"] or one of its sub-fields is missing, or a
    displayed value is absent or is not a number), the text is the
    placeholder ["Quaternion(err)"]; and so it is whenever the four
    components do not all read as floats. *)
Theorem summary_failure_gives_placeholder (valobj : SBValue) :
  (forall e, quaternion_summary valobj <> Raise e) /\
  (extraction_fails valobj ->
   quaternion_summary valobj = Return "Quaternion(err)") /\
  (~ (exists w i j k, reads valobj w i j k) ->
   quaternion_summary valobj = Return "Quaternion(err)").
Proof.
  split; [| split].
  - intros e He. destruct (summary_returns valobj) as [s Hs]. congruence.
  - intros [H0 | (f & Hin & [Hf | Hf])].
    + apply summary_of_failed_read with (f := "x"); [simpl; auto |].
      exists TypeError. unfold field.
      rewrite GetValue_invalid; [reflexivity |].
      now apply GetChildMemberWithName_invalid.
    + apply summary_of_failed_read with (f := f); [exact Hin |].
      exists TypeError. now rewrite GetValue_invalid.
    + now apply summary_of_failed_read with (f := f).
  - intros N. destruct (summary_cases valobj) as [R | P]; [now elim N | exact P].
Qed.

(** C2. When the four components read successfully, the summary is the
    polynomial of the components that are not [0] alone: a component
    equal to [0] leaves no term. When all four are [0] the summary is
    the text ["0"]. *)
Theorem summary_omits_zero_terms (valobj : SBValue) (w i j k : float) :
  reads valobj w i j k ->
  quaternion_summary valobj = Return (polynomial (emitted (terms w i j k))) /\
  (float_eq_0 w = true -> float_eq_0 i = true ->
   float_eq_0 j = true -> float_eq_0 k = true ->
   quaternion_summary valobj = Return "0").
Proof.
  intros H. pose proof (summary_of_reads H) as E. split; [exact E |].
  intros Hw Hi Hj Hk. rewrite E.
  unfold emitted, terms. simpl. now rewrite Hw, Hi, Hj, Hk.
Qed.

(** C3 (as the code has it). On components (1,0,0,0) the summary is
    ["1.0"], on (0,-2,0,0) it is ["-2.0i"], and on (1,2,0,-3) it is
    ["1.0 + 2.0i - 3.0k"]: a value is printed the way Python prints a
    float, and a later term has a space on both sides of its sign. *)
Theorem summary_examples (v1 v2 v3 : SBValue) :
  reads v1 (float_of_int 1) (float_of_int 0) (float_of_int 0) (float_of_int 0) ->
  reads v2 (float_of_int 0) (float_of_int (-2)) (float_of_int 0) (float_of_int 0) ->
  reads v3 (float_of_int 1) (float_of_int 2) (float_of_int 0) (float_of_int (-3)) ->
  quaternion_summary v1 = Return "1.0" /\
  quaternion_summary v2 = Return "-2.0i" /\
  quaternion_summary v3 = Return "1.0 + 2.0i - 3.0k".
Proof.
  intros H1 H2 H3.
  rewrite (summary_of_reads H1), (summary_of_reads H2), (summary_of_reads H3).
  repeat split; vm_compute; reflexivity.
Qed.

(** C4. When the components read and at least one is not [0], the
    summary is the first shown term followed by the later ones. The
    first term is a ["-"] exactly when its value is negative, then the
    absolute value and the suffix, and never starts with ["+"]. Each
    later term is a space, ["-"] or ["+"] by its sign, a space, the
    absolute value and the suffix. The suffix is empty for w and the
    letter for i, j, k. *)
Theorem summary_term_format (valobj : SBValue) (w i j k : float)
        (t : term) (ts : list term) :
  reads valobj w i j k ->
  emitted [(w, ""); (i, "i"); (j, "j"); (k, "k")] = t :: ts ->
  quaternion_summary valobj =
    Return (first_term t ++ concat_all (map next_term ts)) /\
  (leading (first_term t ++ concat_all (map next_term ts)) = Some "-"%char
   <-> float_lt_0 (fst t) = true) /\
  leading (first_term t ++ concat_all (map next_term ts)) <> Some "+"%char /\
  first_term t =
    (if float_lt_0 (fst t) then "-" else "")
      ++ py_str (float_abs (fst t)) ++ snd t /\
  (forall u, next_term u =
     " " ++ (if float_lt_0 (fst u) then "-" else "+") ++ " "
       ++ py_str (float_abs (fst u)) ++ snd u).
Proof.
  intros H E.
  pose proof (summary_of_reads H) as S. unfold terms in S. rewrite E in S.
  split; [exact S |].
  rewrite leading_append by apply first_term_nonempty.
  split; [| split; [| split; [reflexivity | intros u; reflexivity]]];
    unfold first_term;
    destruct (py_str_abs_leading (fst t)) as (c & rest & Ec & Hc1 & Hc2);
    rewrite Ec; destruct (float_lt_0 (fst t)); simpl.
  - split; reflexivity.
  - split; [intros X; injection X as ->; now elim Hc2 | discriminate].
  - discriminate.
  - intros X; injection X as ->; now elim Hc1.
Qed.

(** C5. [num_children] is 4 in every state of the provider, whatever
    value it was bound to and whether or not the binding found the
    fields. *)
Theorem child_count_is_4 :
  (forall self : Quaternion.t, Quaternion.num_children self = Return 4) /\
  (forall valobj : SBValue,
      exists self, Quaternion.__init__ valobj = Return self /\
                   Quaternion.num_children self = Return 4).
Proof.
  split; [reflexivity |].
  intros valobj. eexists. split; reflexivity.
Qed.

(** C6 (as the code has it). In every state and for every integer
    index, [get_child_at_index] returns, for 0, 1, 2, 3, the value the
    debugger builds from the data and type of the matching component
    under the label ["w"], ["i"], ["j"], ["k"], and [None] for every
    other index, -1 and 4 among them; it never raises. The value
    carries its label when it is valid, and it is valid and labeled in
    every state bound to a well-formed value. Where the binding found
    no component the value need be neither: it is what the debugger
    builds from a missing component, and it is not [None]. *)
Theorem child_at_index_spec (self : Quaternion.t) (index : Z) :
  (index = 0 -> Quaternion.get_child_at_index self index =
                Return (Some (child_of (Quaternion.w self) "w"))) /\
  (index = 1 -> Quaternion.get_child_at_index self index =
                Return (Some (child_of (Quaternion.i self) "i"))) /\
  (index = 2 -> Quaternion.get_child_at_index self index =
                Return (Some (child_of (Quaternion.j self) "j"))) /\
  (index = 3 -> Quaternion.get_child_at_index self index =
                Return (Some (child_of (Quaternion.k self) "k"))) /\
  (index < 0 \/ 4 <= index ->
   Quaternion.get_child_at_index self index = Return None) /\
  Quaternion.get_child_at_index self (-1) = Return None /\
  Quaternion.get_child_at_index self 4 = Return None /\
  (forall child,
      Quaternion.get_child_at_index self index = Return (Some child) ->
      IsValid child = true ->
      exists label,
        In (index, label) [(0, "w"); (1, "i"); (2, "j"); (3, "k")] /\
        GetName child = Some label) /\
  (forall valobj,
      well_formed valobj ->
      Quaternion.__init__ valobj = Return self ->
      0 <= index < 4 ->
      exists child label,
        Quaternion.get_child_at_index self index = Return (Some child) /\
        In (index, label) [(0, "w"); (1, "i"); (2, "j"); (3, "k")] /\
        IsValid child = true /\
        GetName child = Some label) /\
  (0 <= index < 4 ->
   Quaternion.get_child_at_index self index <> Return None) /\
  (forall e, Quaternion.get_child_at_index self index <> Raise e).
Proof.
  assert (forall l, l = "w" \/ l = "i" \/ l = "j" \/ l = "k" -> l <> "") as NE
    by (intros l [-> | [-> | [-> | ->]]]; discriminate).
  assert (0 <= index < 4 ->
          exists c label,
            In (c, index, label)
               [(Quaternion.w self, 0, "w"); (Quaternion.i self, 1, "i");
                (Quaternion.j self, 2, "j"); (Quaternion.k self, 3, "k")] /\
            Quaternion.get_child_at_index self index =
              Return (Some (child_of c label))) as IN.
  { intros R.
    assert (index = 0 \/ index = 1 \/ index = 2 \/ index = 3) as C by lia.
    destruct C as [-> | [-> | [-> | ->]]];
      do 2 eexists; (split; [| reflexivity]); simpl; auto 6. }
  split; [| split; [| split; [| split; [| split; [| split; [| split;
    [| split; [| split; [| split]]]]]]]]];
    try (intros ->; reflexivity); try reflexivity.
  - intros H. unfold Quaternion.get_child_at_index.
    destruct (index <? 0) eqn:E1; [reflexivity |].
    destruct (4 <=? index) eqn:E2; [reflexivity |].
    apply Z.ltb_ge in E1. apply Z.leb_gt in E2. lia.
  - intros child H V. unfold Quaternion.get_child_at_index in H.
    destruct ((index <? 0) || (4 <=? index)); [discriminate |].
    destruct (index =? 0) eqn:E0; [apply Z.eqb_eq in E0 |
    destruct (index =? 1) eqn:E1; [apply Z.eqb_eq in E1 |
    destruct (index =? 2) eqn:E2; [apply Z.eqb_eq in E2 |
    destruct (index =? 3) eqn:E3; [apply Z.eqb_eq in E3 | discriminate]]]];
      simpl in H; injection H as <-; subst index.
    + exists "w". split; [simpl; auto |].
      apply GetName_CreateValueFromData; auto.
    + exists "i". split; [simpl; auto |].
      apply GetName_CreateValueFromData; auto.
    + exists "j". split; [simpl; auto |].
      apply GetName_CreateValueFromData; auto 6.
    + exists "k". split; [simpl; auto 6 |].
      apply GetName_CreateValueFromData; auto 6.
  - intros valobj WF Hinit R.
    destruct (IN R) as (c & label & Hin & E).
    unfold Quaternion.__init__, Quaternion.update in Hinit.
    injection Hinit as <-. simpl in Hin.
    assert (IsValid (child_of c label) = true /\ label <> "" /\
            In (index, label) [(0, "w"); (1, "i"); (2, "j"); (3, "k")])
      as (V & N & L).
    { destruct Hin as [Hin | [Hin | [Hin | [Hin | []]]]];
        injection Hin as <- <- <-;
        (split; [| split; [discriminate | simpl; auto 6]]).
      - apply (WF "x"); [simpl; auto | discriminate].
      - apply (WF "y"); [simpl; auto | discriminate].
      - apply (WF "z"); [simpl; auto | discriminate].
      - apply (WF "w"); [simpl; auto | discriminate]. }
    exists (child_of c label), label. repeat split; auto.
    now apply GetName_CreateValueFromData.
  - intros R. destruct (IN R) as (c & label & _ & ->). discriminate.
  - intros e. unfold Quaternion.get_child_at_index.
    destruct ((index <? 0) || (4 <=? index)); [discriminate |].
    destruct (index =? 0); [discriminate |].
    destruct (index =? 1); [discriminate |].
    destruct (index =? 2); [discriminate |].
    destruct (index =? 3); discriminate.
Qed.

(** C8. For a well-formed quaternion value and every index in [0,4),
    the child at that index has a name, and [get_child_index] of that
    name is the index again. *)
Theorem child_name_index_round_trip
        (valobj : SBValue) (self : Quaternion.t) (index : Z) :
  well_formed valobj ->
  Quaternion.__init__ valobj = Return self ->
  0 <= index < 4 ->
  exists child name,
    Quaternion.get_child_at_index self index = Return (Some child) /\
    GetName child = Some name /\
    Quaternion.get_child_index name = Return index.
Proof.
  intros WF Hinit Hidx.
  unfold Quaternion.__init__, Quaternion.update in Hinit.
  injection Hinit as <-.
  assert (index = 0 \/ index = 1 \/ index = 2 \/ index = 3) as C by lia.
  destruct C as [-> | [-> | [-> | ->]]].
  - eexists; exists "w"; repeat split.
    apply GetName_CreateValueFromData; [discriminate |].
    apply (WF "x"); [simpl; auto | discriminate].
  - eexists; exists "i"; repeat split.
    apply GetName_CreateValueFromData; [discriminate |].
    apply (WF "y"); [simpl; auto | discriminate].
  - eexists; exists "j"; repeat split.
    apply GetName_CreateValueFromData; [discriminate |].
    apply (WF "z"); [simpl; auto | discriminate].
  - eexists; exists "k"; repeat split.
    apply GetName_CreateValueFromData; [discriminate |].
    apply (WF "w"); [simpl; auto | discriminate].
Qed.

(** C9. Every public operation returns a result and raises nothing, for
    every inspected value (those whose member lookups find nothing
    included), every index and every name: [__init__] a provider,
    [num_children] a count, [get_child_at_index] a value or [None],
    [get_child_index] an integer, [quaternion_summary] a text. *)
Theorem operations_are_total :
  (forall valobj : SBValue, returns (Quaternion.__init__ valobj)) /\
  (forall self : Quaternion.t, returns (Quaternion.num_children self)) /\
  (forall (self : Quaternion.t) (index : Z),
      returns (Quaternion.get_child_at_index self index)) /\
  (forall name : string, returns (Quaternion.get_child_index name)) /\
  (forall valobj : SBValue, returns (quaternion_summary valobj)).
Proof.
  unfold returns. repeat split.
  - intros valobj. eexists. reflexivity.
  - intros self. eexists. reflexivity.
  - intros self index. unfold Quaternion.get_child_at_index.
    destruct ((index <? 0) || (4 <=? index)); [eauto |].
    destruct (index =? 0); [simpl; eauto |].
    destruct (index =? 1); [simpl; eauto |].
    destruct (index =? 2); [simpl; eauto |].
    destruct (index =? 3); simpl; eauto.
  - intros name. unfold Quaternion.get_child_index.
    repeat match goal with
           | |- context [if ?b then _ else _] => destruct b
           end; eauto.
  - apply summary_returns.
Qed.

(** C10. [__init__] binds the component w to the sub-field ["x"] of the
    member ["0"], i to ["y"], j to ["z"] and k to ["w"]. So the child
    labeled ["k"] is built from the field ["w"] and the child labeled
    ["w"] from the field ["x"]; and when the four fields read as floats,
    the field ["w"] gives the k term of the summary and the field ["x"]
    the term without suffix. *)
Theorem fields_bound_to_components (valobj : SBValue) :
  exists self,
    Quaternion.__init__ valobj = Return self /\
    Quaternion.w self = field valobj "x" /\
    Quaternion.i self = field valobj "y" /\
    Quaternion.j self = field valobj "z" /\
    Quaternion.k self = field valobj "w" /\
    Quaternion.get_child_at_index self 3 =
      Return (Some (child_of (field valobj "w") "k")) /\
    Quaternion.get_child_at_index self 0 =
      Return (Some (child_of (field valobj "x") "w")) /\
    (forall x y z w : float,
        py_float (GetValue (field (GetNonSyntheticValue valobj) "x")) = Return x ->
        py_float (GetValue (field (GetNonSyntheticValue valobj) "y")) = Return y ->
        py_float (GetValue (field (GetNonSyntheticValue valobj) "z")) = Return z ->
        py_float (GetValue (field (GetNonSyntheticValue valobj) "w")) = Return w ->
        quaternion_summary valobj =
          Return (polynomial (emitted [(x, ""); (y, "i"); (z, "j"); (w, "k")]))).
Proof.
  eexists. split; [reflexivity |].
  repeat split.
  intros x y z w Hx Hy Hz Hw.
  apply (@summary_of_reads dbg valobj x y z w).
  eexists. split; [reflexivity |]. simpl. unfold field in *. auto.
Qed.

End Inspector.

(** C7. [get_child_index] gives 0 for ["w"], 1 for ["i"], 2 for ["j"],
    3 for ["k"] and -1 for any other name; it never raises. *)
Theorem child_index_spec (name : string) :
  Quaternion.get_child_index name =
    Return (if string_dec name "w" then 0
            else if string_dec name "i" then 1
            else if string_dec name "j" then 2
            else if string_dec name "k" then 3
            else -1) /\
  Quaternion.get_child_index "w" = Return 0 /\
  Quaternion.get_child_index "i" = Return 1 /\
  Quaternion.get_child_index "j" = Return 2 /\
  Quaternion.get_child_index "k" = Return 3 /\
  (name <> "w" -> name <> "i" -> name <> "j" -> name <> "k" ->
   Quaternion.get_child_index name = Return (-1)).
Proof.
  assert (forall a b, String.eqb a b = if string_dec a b then true else false)
    as D by (intros a b; destruct (string_dec a b) as [-> | N];
             [apply String.eqb_refl | now apply String.eqb_neq]).
  unfold Quaternion.get_child_index. rewrite !D.
  repeat split;
    repeat match goal with
           | |- context [string_dec ?a ?b] => destruct (string_dec a b)
           end; congruence.
Qed.

(* ================================================================== *)
(** ** The properties at work, on the reference debugger *)
(* ================================================================== *)

Lemma tree_reads (x y z w : string) (fx fy fz fw : float) :
  float_of_string x = Some fx -> float_of_string y = Some fy ->
  float_of_string z = Some fz -> float_of_string w = Some fw ->
  reads (dbg := tree_debugger)
        (tree_quaternion (Some x) (Some y) (Some z) (Some w)) fx fy fz fw.
Proof.
  intros Hx Hy Hz Hw. eexists. split; [reflexivity |].
  simpl. now rewrite Hx, Hy, Hz, Hw.
Defined.

Lemma tree_quaternion_well_formed (x y z w : option string) :
  well_formed (dbg := tree_debugger) (tree_quaternion x y z w).
Proof.
  intros f Hin n Hn. simpl in Hin.
  destruct Hin as [<- | [<- | [<- | [<- | []]]]]; reflexivity.
Defined.

(** C1 at a stripped value: the lookup of ["0"] finds nothing, and the
    summary is the placeholder. *)
Lemma summary_failure_gives_placeholder_witness :
  extraction_fails (dbg := tree_debugger) stripped /\
  quaternion_summary (dbg := tree_debugger) stripped = Return "Quaternion(err)".
Proof.
  assert (extraction_fails (dbg := tree_debugger) stripped) as F
    by (left; reflexivity).
  split; [exact F |].
  exact (proj1 (proj2 (@summary_failure_gives_placeholder
                         tree_debugger stripped)) F).
Defined.

(** C2 at (0,-2,0,0), where only the i term is left, and at (0,0,0,0). *)
Lemma summary_omits_zero_terms_witness :
  quaternion_summary (dbg := tree_debugger) q_0_m2_0_0 =
    Return (polynomial [(float_of_int (-2), "i")]) /\
  quaternion_summary (dbg := tree_debugger) q_0_0_0_0 = Return "0".
Proof.
  split.
  - apply (proj1 (@summary_omits_zero_terms tree_debugger q_0_m2_0_0
                    (float_of_int 0) (float_of_int (-2))
                    (float_of_int 0) (float_of_int 0)
                    (tree_reads "0" "-2" "0" "0"
                       eq_refl eq_refl eq_refl eq_refl))).
  - apply (proj2 (@summary_omits_zero_terms tree_debugger q_0_0_0_0
                    (float_of_int 0) (float_of_int 0)
                    (float_of_int 0) (float_of_int 0)
                    (tree_reads "0" "0" "0" "0"
                       eq_refl eq_refl eq_refl eq_refl)));
      reflexivity.
Defined.

(** C3 as claimed fails: on (1,0,0,0) the summary is not ["1"], on
    (0,-2,0,0) it is not ["-2i"], on (1,2,0,-3) it is not
    ["1 +2i -3k"]. *)
Lemma summary_examples_counterexample :
  quaternion_summary (dbg := tree_debugger) q_1_0_0_0 <> Return "1" /\
  quaternion_summary (dbg := tree_debugger) q_0_m2_0_0 <> Return "-2i" /\
  quaternion_summary (dbg := tree_debugger) q_1_2_0_m3 <> Return "1 +2i -3k".
Proof.
  repeat split; vm_compute; discriminate.
Qed.

(** C3 as the code has it, on the three values. *)
Lemma summary_examples_witness :
  quaternion_summary (dbg := tree_debugger) q_1_0_0_0 = Return "1.0" /\
  quaternion_summary (dbg := tree_debugger) q_0_m2_0_0 = Return "-2.0i" /\
  quaternion_summary (dbg := tree_debugger) q_1_2_0_m3 =
    Return "1.0 + 2.0i - 3.0k".
Proof.
  exact (@summary_examples tree_debugger q_1_0_0_0 q_0_m2_0_0 q_1_2_0_m3
           (tree_reads "1" "0" "0" "0" eq_refl eq_refl eq_refl eq_refl)
           (tree_reads "0" "-2" "0" "0" eq_refl eq_refl eq_refl eq_refl)
           (tree_reads "1" "2" "0" "-3" eq_refl eq_refl eq_refl eq_refl)).
Defined.

(** C4 at (1,2,0,-3): the real term first, then the i and k terms. *)
Lemma summary_term_format_witness :
  quaternion_summary (dbg := tree_debugger) q_1_2_0_m3 =
    Return (first_term (float_of_int 1, "")
              ++ concat_all (map next_term [(float_of_int 2, "i");
                                            (float_of_int (-3), "k")])).
Proof.
  exact (proj1 (@summary_term_format tree_debugger q_1_2_0_m3
                  (float_of_int 1) (float_of_int 2)
                  (float_of_int 0) (float_of_int (-3))
                  (float_of_int 1, "")
                  [(float_of_int 2, "i"); (float_of_int (-3), "k")]
                  (tree_reads "1" "2" "0" "-3"
                     eq_refl eq_refl eq_refl eq_refl)
                  eq_refl)).
Defined.

(** C6 as claimed fails in a state where the binding found nothing:
    for the stripped value the child at index 0 is neither absent nor
    labeled ["w"]; it is an invalid value without a name. *)
Lemma child_at_index_counterexample :
  exists self child,
    Quaternion.__init__ (dbg := tree_debugger) stripped = Return self /\
    Quaternion.get_child_at_index self 0 = Return (Some child) /\
    IsValid child = false /\
    GetName child = None /\
    GetName child <> Some "w".
Proof.
  eexists. eexists. split; [reflexivity |]. split; [reflexivity |].
  split; [reflexivity |]. split; [reflexivity | discriminate].
Qed.

(** C6 as the code has it, at index 3 of a well-formed value: the
    child is valid and named ["k"]. *)
Lemma child_at_index_spec_witness :
  exists child label,
    Quaternion.get_child_at_index
      (@Quaternion.Build_t tree_debugger q_1_2_0_m3
         (Node "x" (Some "1") []) (Node "y" (Some "2") [])
         (Node "z" (Some "0") []) (Node "w" (Some "-3") [])) 3
      = Return (Some child) /\
    In (3, label) [(0, "w"); (1, "i"); (2, "j"); (3, "k")] /\
    IsValid child = true /\
    GetName child = Some label.
Proof.
  apply (proj1 (proj2 (proj2 (proj2 (proj2 (proj2 (proj2 (proj2 (proj2
           (@child_at_index_spec tree_debugger
              (@Quaternion.Build_t tree_debugger q_1_2_0_m3
                 (Node "x" (Some "1") []) (Node "y" (Some "2") [])
                 (Node "z" (Some "0") []) (Node "w" (Some "-3") [])) 3)))))))))
         q_1_2_0_m3).
  - apply tree_quaternion_well_formed.
  - reflexivity.
  - lia.
Defined.

(** C8 at index 2 of a well-formed value: the child is named ["j"],
    and ["j"] is index 2. *)
Lemma child_name_index_round_trip_witness :
  exists child name,
    Quaternion.get_child_at_index
      (@Quaternion.Build_t tree_debugger q_1_2_0_m3
         (Node "x" (Some "1") []) (Node "y" (Some "2") [])
         (Node "z" (Some "0") []) (Node "w" (Some "-3") [])) 2
      = Return (Some child) /\
    GetName child = Some name /\
    Quaternion.get_child_index name = Return 2.
Proof.
  apply (@child_name_index_round_trip tree_debugger q_1_2_0_m3).
  - apply tree_quaternion_well_formed.
  - reflexivity.
  - lia.
Defined.

(* ================================================================== *)
(** ** More on the quaternion inspector *)
(* ================================================================== *)

Lemma eqb_string_dec (a b : string) :
  String.eqb a b = if string_dec a b then true else false.
Proof.
  destruct (string_dec a b) as [-> | N];
    [apply String.eqb_refl | now apply String.eqb_neq].
Qed.

(** What the text of [abs(v)] can start with: a digit, or the first
    letter of [inf] or [nan]. *)
Definition starts_number (c : ascii) : Prop :=
  In c (chars "0123456789in").

Lemma digit_char_starts_number (d : Z) :
  0 <= d <= 9 -> starts_number (digit_char d).
Proof.
  intros H.
  assert (d = 0 \/ d = 1 \/ d = 2 \/ d = 3 \/ d = 4 \/
          d = 5 \/ d = 6 \/ d = 7 \/ d = 8 \/ d = 9) as C by lia.
  unfold starts_number.
  repeat (destruct C as [C | C]; [subst d; simpl; tauto |]).
  subst d; simpl; tauto.
Qed.

Lemma digit_chars_aux_first (fuel : nat) :
  forall x acc, 0 <= x ->
    exists c tl, digit_chars_aux fuel x acc = c :: tl /\ starts_number c.
Proof.
  induction fuel as [|f IH]; intros x acc Hx; simpl.
  - exists (digit_char (x mod 10)), acc. split; [reflexivity |].
    apply digit_char_starts_number.
    pose proof (Z.mod_pos_bound x 10). lia.
  - destruct (x <? 10) eqn:E.
    + exists (digit_char x), acc. split; [reflexivity |].
      apply digit_char_starts_number. apply Z.ltb_lt in E. lia.
    + apply IH. apply Z.div_pos; lia.
Qed.

Lemma format_digits_first (c decpt : Z) :
  0 <= c -> exists x tl, format_digits c decpt = x :: tl /\ starts_number x.
Proof.
  intros Hc. unfold format_digits, digit_chars.
  destruct (@digit_chars_aux_first (Z.to_nat (Z.log2 c)) c [] Hc)
    as (d & tl & -> & Hd).
  assert (starts_number "0"%char) as H0 by (unfold starts_number; simpl; tauto).
  destruct ((decpt <=? -4) || (16 <? decpt)).
  - destruct tl; eauto.
  - destruct (decpt <=? 0) eqn:E0; [eauto |].
    apply Z.leb_gt in E0.
    destruct (decpt <? Z.of_nat (List.length (d :: tl))).
    + destruct (Z.to_nat decpt) eqn:En; [lia |]. simpl. eauto.
    + simpl. eauto.
Qed.

Lemma py_str_abs_first (v : float) :
  exists c rest, py_str (float_abs v) = String c rest /\ starts_number c.
Proof.
  unfold py_str, float_abs, starts_number.
  destruct v as [s | s | | s m e]; simpl.
  - exists "0"%char, ".0". split; [reflexivity | tauto].
  - exists "i"%char, "nf". split; [reflexivity | tauto].
  - exists "n"%char, "an". split; [reflexivity | tauto].
  - pose proof (shortest_digits_nonneg m e) as Hc.
    destruct (shortest_digits m e) as [c decpt]. simpl in Hc.
    destruct (format_digits_first decpt Hc) as (x & tl & -> & Hx).
    simpl. eauto.
Qed.

(** A polynomial starts with a minus sign, a digit, or the first letter
    of [inf] or [nan]. *)
Lemma polynomial_first (ts : list term) :
  exists c rest,
    polynomial ts = String c rest /\ (c = "-"%char \/ starts_number c).
Proof.
  destruct ts as [|t ts]; simpl.
  - exists "0"%char, "". split; [reflexivity |].
    right. unfold starts_number. simpl. tauto.
  - unfold first_term.
    destruct (py_str_abs_first (fst t)) as (c & rest & -> & Hc).
    destruct (float_lt_0 (fst t)); simpl; eauto.
Qed.

Lemma polynomial_not_placeholder (ts : list term) :
  polynomial ts <> "Quaternion(err)".
Proof.
  destruct (polynomial_first ts) as (c & rest & -> & Hc).
  intros E. injection E as -> _.
  destruct Hc as [Hc | Hc]; [discriminate |].
  unfold starts_number in Hc. simpl in Hc.
  repeat (destruct Hc as [Hc | Hc]; [discriminate |]). exact Hc.
Qed.

Section InspectorMore.
Context {dbg : Debugger}.

(** X1. Looking a child up by name, with [get_child_index] and then
    [get_child_at_index], gives for ["w"], ["i"], ["j"], ["k"] the
    child built from the matching component and labeled with that
    name, and [None] for every other name: the -1 of an unknown name
    is no index of a child. *)
Theorem quaternion_child_by_name (self : Quaternion.t) (name : string) :
  (idx <- Quaternion.get_child_index name ;;
   Quaternion.get_child_at_index self idx) =
  Return (if string_dec name "w" then Some (child_of (Quaternion.w self) name)
          else if string_dec name "i" then Some (child_of (Quaternion.i self) name)
          else if string_dec name "j" then Some (child_of (Quaternion.j self) name)
          else if string_dec name "k" then Some (child_of (Quaternion.k self) name)
          else None).
Proof.
  unfold Quaternion.get_child_index. rewrite !eqb_string_dec.
  repeat match goal with
         | |- context [string_dec ?a ?b] =>
             destruct (string_dec a b) as [-> | ?]
         end; reflexivity.
Qed.

(** X2. The summary is the placeholder ["Quaternion(err)"] exactly when
    the four components do not all read as floats: no value that reads
    is summarized by the placeholder text. *)
Theorem quaternion_placeholder_iff_unreadable (valobj : SBValue) :
  quaternion_summary valobj = Return "Quaternion(err)" <->
  ~ (exists w i j k, reads valobj w i j k).
Proof.
  split.
  - intros E (w & i & j & k & R).
    rewrite (summary_of_reads R) in E. injection E as E.
    now apply polynomial_not_placeholder in E.
  - intros N. destruct (summary_cases valobj) as [R | P];
      [now elim N | exact P].
Qed.

End InspectorMore.

(* ================================================================== *)
(** ** The vector printers *)
(* ================================================================== *)

Section Vectors.
Context {dbg : Debugger} {tgt : Target}.

Lemma float_at_returns (valobj : SBValue) (label : string) (addr : Z) :
  returns (float_at valobj label addr).
Proof.
  unfold float_at, returns.
  destruct (CreateValueFromAddress valobj label addr (float_type valobj));
    simpl; eauto.
Qed.

Ltac index_cases index :=
  repeat match goal with
         | |- context [index =? ?n] =>
             let E := fresh "E" in
             destruct (index =? n) eqn:E;
             [apply Z.eqb_eq in E; subst index | apply Z.eqb_neq in E]
         end.

(** X3. [get_child_at_index] of the three vector providers, for every
    state and every integer index: a child exists only for an index
    below the number of components (2, 3, 4) and a pointer that is not
    null; it is then the float at [data_ptr + 4 * index], named x, y,
    z, w in that order, or [None] when the debugger call raises. Every
    other index gives [None], index 2 of a Vec2 included although its
    range test lets it through. The call never raises. *)
Theorem vector_child_at_index :
  (forall (self : Vec2.t) (index : Z),
      Vec2.get_child_at_index self index =
        (if (0 <=? index) && (index <? 2) && negb (Vec2.data_ptr self =? 0)
         then float_at (Vec2.valobj self)
                (nth (Z.to_nat index) ["x"; "y"] "")
                (Vec2.data_ptr self + 4 * index)
         else Return None) /\
      returns (Vec2.get_child_at_index self index)) /\
  (forall (self : Vec3.t) (index : Z),
      Vec3.get_child_at_index self index =
        (if (0 <=? index) && (index <? 3) && negb (Vec3.data_ptr self =? 0)
         then float_at (Vec3.valobj self)
                (nth (Z.to_nat index) ["x"; "y"; "z"] "")
                (Vec3.data_ptr self + 4 * index)
         else Return None) /\
      returns (Vec3.get_child_at_index self index)) /\
  (forall (self : Vec4.t) (index : Z),
      Vec4.get_child_at_index self index =
        (if (0 <=? index) && (index <? 4) && negb (Vec4.data_ptr self =? 0)
         then float_at (Vec4.valobj self)
                (nth (Z.to_nat index) ["x"; "y"; "z"; "w"] "")
                (Vec4.data_ptr self + 4 * index)
         else Return None) /\
      returns (Vec4.get_child_at_index self index)).
Proof.
  assert (forall c : Py (option SBValue), c = Return None -> returns c) as RN
    by (intros c ->; unfold returns; eauto).
  split; [| split]; intros self index; split.
  - unfold Vec2.get_child_at_index.
    destruct (index <? 0) eqn:L; [apply Z.ltb_lt in L | apply Z.ltb_ge in L];
      simpl.
    { replace (0 <=? index) with false by (symmetry; apply Z.leb_gt; lia).
      reflexivity. }
    replace (0 <=? index) with true by (symmetry; apply Z.leb_le; lia).
    destruct (3 <=? index) eqn:U; [apply Z.leb_le in U | apply Z.leb_gt in U];
      simpl.
    { replace (index <? 2) with false by (symmetry; apply Z.ltb_ge; lia).
      reflexivity. }
    destruct (Vec2.data_ptr self =? 0); simpl;
      [now destruct (index <? 2) |].
    index_cases index; try reflexivity.
    replace (index <? 2) with false by (symmetry; apply Z.ltb_ge; lia).
    reflexivity.
  - unfold Vec2.get_child_at_index.
    destruct ((index <? 0) || (3 <=? index)); [now apply RN |].
    destruct (Vec2.data_ptr self =? 0); [now apply RN |].
    index_cases index; try (now apply RN); apply float_at_returns.
  - unfold Vec3.get_child_at_index.
    destruct (index <? 0) eqn:L; [apply Z.ltb_lt in L | apply Z.ltb_ge in L];
      simpl.
    { replace (0 <=? index) with false by (symmetry; apply Z.leb_gt; lia).
      reflexivity. }
    replace (0 <=? index) with true by (symmetry; apply Z.leb_le; lia).
    destruct (3 <=? index) eqn:U; [apply Z.leb_le in U | apply Z.leb_gt in U];
      simpl.
    { replace (index <? 3) with false by (symmetry; apply Z.ltb_ge; lia).
      reflexivity. }
    destruct (Vec3.data_ptr self =? 0); simpl;
      [now destruct (index <? 3) |].
    index_cases index; try reflexivity. lia.
  - unfold Vec3.get_child_at_index.
    destruct ((index <? 0) || (3 <=? index)); [now apply RN |].
    destruct (Vec3.data_ptr self =? 0); [now apply RN |].
    index_cases index; try (now apply RN); apply float_at_returns.
  - unfold Vec4.get_child_at_index.
    destruct (index <? 0) eqn:L; [apply Z.ltb_lt in L | apply Z.ltb_ge in L];
      simpl.
    { replace (0 <=? index) with false by (symmetry; apply Z.leb_gt; lia).
      reflexivity. }
    replace (0 <=? index) with true by (symmetry; apply Z.leb_le; lia).
    destruct (4 <=? index) eqn:U; [apply Z.leb_le in U | apply Z.leb_gt in U];
      simpl.
    { replace (index <? 4) with false by (symmetry; apply Z.ltb_ge; lia).
      reflexivity. }
    destruct (Vec4.data_ptr self =? 0); simpl;
      [now destruct (index <? 4) |].
    index_cases index; try reflexivity. lia.
  - unfold Vec4.get_child_at_index.
    destruct ((index <? 0) || (4 <=? index)); [now apply RN |].
    destruct (Vec4.data_ptr self =? 0); [now apply RN |].
    index_cases index; try (now apply RN); apply float_at_returns.
Qed.

(** X4. Looking a child of a vector up by name, with [get_child_index]
    and then [get_child_at_index]: when the pointer is not null, x, y,
    z, w give the float at offsets 0, 4, 8, 12 under that name, as far
    as the vector has the component, and every other name gives
    [None]. A Vec2 knows the name z as index 2 and has no child there.
    A null pointer gives [None] for every name. *)
Theorem vector_child_by_name :
  (forall (self : Vec2.t) (name : string),
      (idx <- Vec2.get_child_index name ;; Vec2.get_child_at_index self idx) =
        if Vec2.data_ptr self =? 0 then Return None
        else if string_dec name "x"
             then float_at (Vec2.valobj self) name (Vec2.data_ptr self + 0)
        else if string_dec name "y"
             then float_at (Vec2.valobj self) name (Vec2.data_ptr self + 4)
        else Return None) /\
  (Vec2.get_child_index "z" = Return 2 /\
   forall self : Vec2.t, Vec2.get_child_at_index self 2 = Return None) /\
  (forall (self : Vec3.t) (name : string),
      (idx <- Vec3.get_child_index name ;; Vec3.get_child_at_index self idx) =
        if Vec3.data_ptr self =? 0 then Return None
        else if string_dec name "x"
             then float_at (Vec3.valobj self) name (Vec3.data_ptr self + 0)
        else if string_dec name "y"
             then float_at (Vec3.valobj self) name (Vec3.data_ptr self + 4)
        else if string_dec name "z"
             then float_at (Vec3.valobj self) name (Vec3.data_ptr self + 8)
        else Return None) /\
  (forall (self : Vec4.t) (name : string),
      (idx <- Vec4.get_child_index name ;; Vec4.get_child_at_index self idx) =
        if Vec4.data_ptr self =? 0 then Return None
        else if string_dec name "x"
             then float_at (Vec4.valobj self) name (Vec4.data_ptr self + 0)
        else if string_dec name "y"
             then float_at (Vec4.valobj self) name (Vec4.data_ptr self + 4)
        else if string_dec name "z"
             then float_at (Vec4.valobj self) name (Vec4.data_ptr self + 8)
        else if string_dec name "w"
             then float_at (Vec4.valobj self) name (Vec4.data_ptr self + 12)
        else Return None).
Proof.
  split; [| split; [| split]].
  - intros self name. unfold Vec2.get_child_index. rewrite !eqb_string_dec.
    repeat match goal with
           | |- context [string_dec ?a ?b] =>
               destruct (string_dec a b) as [-> | ?]
           end;
      cbn [bind]; unfold Vec2.get_child_at_index; simpl;
      destruct (Vec2.data_ptr self =? 0); reflexivity.
  - split; [reflexivity |]. intros self.
    unfold Vec2.get_child_at_index. simpl.
    destruct (Vec2.data_ptr self =? 0); reflexivity.
  - intros self name. unfold Vec3.get_child_index. rewrite !eqb_string_dec.
    repeat match goal with
           | |- context [string_dec ?a ?b] =>
               destruct (string_dec a b) as [-> | ?]
           end;
      cbn [bind]; unfold Vec3.get_child_at_index; simpl;
      destruct (Vec3.data_ptr self =? 0); reflexivity.
  - intros self name. unfold Vec4.get_child_index. rewrite !eqb_string_dec.
    repeat match goal with
           | |- context [string_dec ?a ?b] =>
               destruct (string_dec a b) as [-> | ?]
           end;
      cbn [bind]; unfold Vec4.get_child_at_index; simpl;
      destruct (Vec4.data_ptr self =? 0); reflexivity.
Qed.

(** X5. The summaries of the three vector printers never raise, and
    decide in this order on the value behind the synthetic one: a null
    pointer gives ["VecN(null)"] whatever the length shows; otherwise a
    length other than N gives ["VecN(?)"]; otherwise, when a read of a
    component raises, the text is ["VecN(err)"]. *)
Theorem vector_summary_decision (valobj : SBValue) :
  (returns (vec2_summary valobj) /\
   (shown_data_ptr (GetNonSyntheticValue valobj) = 0 ->
    vec2_summary valobj = Return "Vec2(null)") /\
   (shown_data_ptr (GetNonSyntheticValue valobj) <> 0 ->
    shown_length (GetNonSyntheticValue valobj) <> 2 ->
    vec2_summary valobj = Return "Vec2(?)") /\
   (shown_data_ptr (GetNonSyntheticValue valobj) <> 0 ->
    shown_length (GetNonSyntheticValue valobj) = 2 ->
    some_read_raises (GetNonSyntheticValue valobj) [("x", 0); ("y", 4)] ->
    vec2_summary valobj = Return "Vec2(err)")) /\
  (returns (vec3_summary valobj) /\
   (shown_data_ptr (GetNonSyntheticValue valobj) = 0 ->
    vec3_summary valobj = Return "Vec3(null)") /\
   (shown_data_ptr (GetNonSyntheticValue valobj) <> 0 ->
    shown_length (GetNonSyntheticValue valobj) <> 3 ->
    vec3_summary valobj = Return "Vec3(?)") /\
   (shown_data_ptr (GetNonSyntheticValue valobj) <> 0 ->
    shown_length (GetNonSyntheticValue valobj) = 3 ->
    some_read_raises (GetNonSyntheticValue valobj)
      [("x", 0); ("y", 4); ("z", 8)] ->
    vec3_summary valobj = Return "Vec3(err)")) /\
  (returns (vec4_summary valobj) /\
   (shown_data_ptr (GetNonSyntheticValue valobj) = 0 ->
    vec4_summary valobj = Return "Vec4(null)") /\
   (shown_data_ptr (GetNonSyntheticValue valobj) <> 0 ->
    shown_length (GetNonSyntheticValue valobj) <> 4 ->
    vec4_summary valobj = Return "Vec4(?)") /\
   (shown_data_ptr (GetNonSyntheticValue valobj) <> 0 ->
    shown_length (GetNonSyntheticValue valobj) = 4 ->
    some_read_raises (GetNonSyntheticValue valobj)
      [("x", 0); ("y", 4); ("z", 8); ("w", 12)] ->
    vec4_summary valobj = Return "Vec4(err)")).
Proof.
  set (real := GetNonSyntheticValue valobj).
  assert (forall (body : Py string) h, returns (try_except body (Return h)))
    as TR by (intros [s | e] h; unfold returns; simpl; eauto).
  split; [| split]; (split; [apply TR |]);
    [unfold vec2_summary, Vec2.__init__, Vec2.update
    | unfold vec3_summary, Vec3.__init__, Vec3.update
    | unfold vec4_summary, Vec4.__init__, Vec4.update];
    cbn [bind Vec2.data_ptr Vec2.length Vec3.data_ptr Vec3.length
              Vec4.data_ptr Vec4.length];
    fold real; fold (shown_data_ptr real); fold (shown_length real);
    fold (float_type real);
    (split; [intros ->; reflexivity |]);
    (split;
     [intros P L;
      apply Z.eqb_neq in P; apply Z.eqb_neq in L; now rewrite P, L |]);
    intros P L (label & off & Hin & [e He]);
    apply Z.eqb_neq in P; rewrite P, L; simpl negb; cbv iota;
    simpl in Hin;
    repeat (destruct Hin as [Hin | Hin];
            [injection Hin as <- <-;
             repeat match goal with
                    | |- context [CreateValueFromAddress real ?l ?p ?t] =>
                        lazymatch goal with
                        | H : CreateValueFromAddress real l p t = _ |- _ =>
                            rewrite H
                        | |- _ =>
                            destruct (CreateValueFromAddress real l p t) eqn:?
                        end; cbn [bind try_except]
                    end; try reflexivity; congruence |]);
    contradiction.
Qed.

(** X6. The summary of a vector shows its children: when the length is
    N and [get_child_at_index] gives a child for each index below N,
    the summary is the text of those children's values, in braces,
    each after its name. *)
Theorem vector_summary_shows_children (valobj : SBValue) :
  (forall (self : Vec2.t) (c0 c1 : SBValue),
      Vec2.__init__ (GetNonSyntheticValue valobj) = Return self ->
      Vec2.length self = 2 ->
      Vec2.get_child_at_index self 0 = Return (Some c0) ->
      Vec2.get_child_at_index self 1 = Return (Some c1) ->
      vec2_summary valobj =
        Return ("{x:" ++ py_format_value (GetValue c0)
                  ++ ", y:" ++ py_format_value (GetValue c1) ++ "}")) /\
  (forall (self : Vec3.t) (c0 c1 c2 : SBValue),
      Vec3.__init__ (GetNonSyntheticValue valobj) = Return self ->
      Vec3.length self = 3 ->
      Vec3.get_child_at_index self 0 = Return (Some c0) ->
      Vec3.get_child_at_index self 1 = Return (Some c1) ->
      Vec3.get_child_at_index self 2 = Return (Some c2) ->
      vec3_summary valobj =
        Return ("{x:" ++ py_format_value (GetValue c0)
                  ++ ", y:" ++ py_format_value (GetValue c1)
                  ++ ", z:" ++ py_format_value (GetValue c2) ++ "}")) /\
  (forall (self : Vec4.t) (c0 c1 c2 c3 : SBValue),
      Vec4.__init__ (GetNonSyntheticValue valobj) = Return self ->
      Vec4.length self = 4 ->
      Vec4.get_child_at_index self 0 = Return (Some c0) ->
      Vec4.get_child_at_index self 1 = Return (Some c1) ->
      Vec4.get_child_at_index self 2 = Return (Some c2) ->
      Vec4.get_child_at_index self 3 = Return (Some c3) ->
      vec4_summary valobj =
        Return ("{x:" ++ py_format_value (GetValue c0)
                  ++ ", y:" ++ py_format_value (GetValue c1)
                  ++ ", z:" ++ py_format_value (GetValue c2)
                  ++ ", w:" ++ py_format_value (GetValue c3) ++ "}")).
Proof.
  assert (forall v l p c,
             try_except
               (c <- CreateValueFromAddress v l p (FindFirstType (GetTarget v) "float") ;;
                Return (Some c)) (Return None) = Return (Some c) ->
             CreateValueFromAddress v l p (FindFirstType (GetTarget v) "float")
               = Return c) as INV.
  { intros v l p c.
    destruct (CreateValueFromAddress v l p _); simpl; congruence. }
  split; [| split].
  - intros self c0 c1 Hinit Hlen H0 H1.
    unfold Vec2.__init__, Vec2.update in Hinit. injection Hinit as <-.
    unfold Vec2.get_child_at_index in H0, H1. simpl in Hlen, H0, H1.
    unfold vec2_summary, Vec2.__init__, Vec2.update.
    cbn [bind Vec2.data_ptr Vec2.length]. rewrite Hlen.
    destruct (_ =? 0); [discriminate |]. simpl negb. cbv iota.
    apply INV in H0, H1.
    rewrite Z.add_0_r. simpl in H0. rewrite Z.add_0_r in H0.
    now rewrite H0, H1.
  - intros self c0 c1 c2 Hinit Hlen H0 H1 H2.
    unfold Vec3.__init__, Vec3.update in Hinit. injection Hinit as <-.
    unfold Vec3.get_child_at_index in H0, H1, H2. simpl in Hlen, H0, H1, H2.
    unfold vec3_summary, Vec3.__init__, Vec3.update.
    cbn [bind Vec3.data_ptr Vec3.length]. rewrite Hlen.
    destruct (_ =? 0); [discriminate |]. simpl negb. cbv iota.
    apply INV in H0, H1, H2.
    rewrite Z.add_0_r. simpl in H0. rewrite Z.add_0_r in H0.
    now rewrite H0, H1, H2.
  - intros self c0 c1 c2 c3 Hinit Hlen H0 H1 H2 H3.
    unfold Vec4.__init__, Vec4.update in Hinit. injection Hinit as <-.
    unfold Vec4.get_child_at_index in H0, H1, H2, H3.
    simpl in Hlen, H0, H1, H2, H3.
    unfold vec4_summary, Vec4.__init__, Vec4.update.
    cbn [bind Vec4.data_ptr Vec4.length]. rewrite Hlen.
    destruct (_ =? 0); [discriminate |]. simpl negb. cbv iota.
    apply INV in H0, H1, H2, H3.
    rewrite Z.add_0_r. simpl in H0. rewrite Z.add_0_r in H0.
    now rewrite H0, H1, H2, H3.
Qed.

End Vectors.

(* ================================================================== *)
(** ** The matrix printer *)
(* ================================================================== *)

Lemma digit_chars_aux_longer (fuel : nat) :
  forall x acc,
    (List.length acc < List.length (digit_chars_aux fuel x acc))%nat.
Proof.
  induction fuel as [|f IH]; intros x acc; simpl; [lia |].
  destruct (x <? 10); simpl; [lia |].
  specialize (IH (x / 10) (digit_char (x mod 10) :: acc)). simpl in IH. lia.
Qed.

(** The text of an integer is a single character only for 0 to 9. *)
Lemma py_str_int_one_char (n : Z) (c : ascii) :
  py_str_int n = String c "" -> 0 <= n <= 9.
Proof.
  unfold py_str_int, digit_chars. intros E.
  destruct (n <? 0) eqn:N.
  - exfalso. simpl in E. injection E as _ E.
    pose proof (digit_chars_aux_longer (Z.to_nat (Z.log2 (Z.abs n)))
                  (Z.abs n) []) as L.
    destruct (digit_chars_aux _ _ _); simpl in *; [lia | discriminate].
  - apply Z.ltb_ge in N. rewrite Z.abs_eq in E by exact N. simpl in E.
    destruct (Z_le_gt_dec n 9) as [|G]; [lia |]. exfalso.
    assert (3 <= Z.log2 n) as L3
      by (change 3 with (Z.log2 8); apply Z.log2_le_mono; lia).
    destruct (Z.to_nat (Z.log2 n)) as [|f] eqn:F; [lia |].
    simpl in E.
    replace (n <? 10) with false in E by (symmetry; apply Z.ltb_ge; lia).
    pose proof (digit_chars_aux_longer f (n / 10) [digit_char (n mod 10)])
      as L.
    destruct (digit_chars_aux f (n / 10) [digit_char (n mod 10)])
      as [|a [|b tl]]; simpl in *; try lia; discriminate.
Qed.

Lemma bracketed_eqb (s : string) (c : ascii) :
  String.eqb ("[" ++ s ++ "]") (String "[" (String c "]")) =
  String.eqb s (String c "").
Proof.
  destruct (String.eqb s (String c "")) eqn:E.
  - apply String.eqb_eq in E. subst s. simpl.
    rewrite Ascii.eqb_refl. reflexivity.
  - apply String.eqb_neq in E. apply String.eqb_neq. intros H.
    apply E. simpl in H. injection H as H.
    destruct s as [|x [|y s']]; simpl in H; try discriminate.
    + injection H as ->. reflexivity.
    + injection H as _ H. destruct s'; discriminate.
Qed.

Section Matrix.
Context {dbg : Debugger} {tgt : Target}.

(** X7. [get_child_at_index] of the matrix provider has no index it
    turns down: its test, [index >= 0 or index < 4], holds for every
    integer. For every index, negative ones and 4 and above included,
    it asks the debugger for four floats at [data_ptr + 16 * index]
    under the name ["[index]"]; it never answers [None], and what the
    debugger call raises it raises too. *)
Theorem mat4_child_at_any_index (self : Mat4.t) (index : Z) :
  Mat4.get_child_at_index self index =
    (c <- CreateValueFromAddress (Mat4.valobj self)
            ("[" ++ py_str_int index ++ "]")
            (Mat4.data_ptr self + 16 * index)
            (GetArrayType (float_type (Mat4.valobj self)) 4) ;;
     Return (Some c)) /\
  Mat4.get_child_at_index self index <> Return None /\
  (forall e,
      CreateValueFromAddress (Mat4.valobj self)
        ("[" ++ py_str_int index ++ "]")
        (Mat4.data_ptr self + 16 * index)
        (GetArrayType (float_type (Mat4.valobj self)) 4) = Raise e ->
      Mat4.get_child_at_index self index = Raise e).
Proof.
  assert (Mat4.get_child_at_index self index =
          (c <- CreateValueFromAddress (Mat4.valobj self)
                  ("[" ++ py_str_int index ++ "]")
                  (Mat4.data_ptr self + 16 * index)
                  (GetArrayType (float_type (Mat4.valobj self)) 4) ;;
           Return (Some c))) as E.
  { unfold Mat4.get_child_at_index, float_type.
    replace ((0 <=? index) || (index <? 4)) with true.
    - replace (index * 4 * 4) with (16 * index) by lia. reflexivity.
    - symmetry. apply orb_true_iff.
      destruct (Z_le_gt_dec 0 index);
        [left; apply Z.leb_le | right; apply Z.ltb_lt]; lia. }
  rewrite E. split; [reflexivity |]. split.
  - destruct (CreateValueFromAddress _ _ _ _); simpl; discriminate.
  - intros e ->. reflexivity.
Qed.

End Matrix.

(** X8. The names of the matrix rows map back to their indices:
    [get_child_index] of ["[index]"], the name [get_child_at_index]
    gives to row [index], is [index] again for 0, 1, 2, 3, and -1 for
    every other index. *)
Theorem mat4_row_name_round_trip (index : Z) :
  Mat4.get_child_index ("[" ++ py_str_int index ++ "]") =
    Return (if (0 <=? index) && (index <? 4) then index else -1).
Proof.
  destruct ((0 <=? index) && (index <? 4)) eqn:R.
  - apply andb_true_iff in R. destruct R as [L U].
    apply Z.leb_le in L. apply Z.ltb_lt in U.
    assert (index = 0 \/ index = 1 \/ index = 2 \/ index = 3) as C by lia.
    destruct C as [-> | [-> | [-> | ->]]]; reflexivity.
  - unfold Mat4.get_child_index.
    change "[0]" with (String "[" (String "0" "]")).
    change "[1]" with (String "[" (String "1" "]")).
    change "[2]" with (String "[" (String "2" "]")).
    change "[3]" with (String "[" (String "3" "]")).
    rewrite !bracketed_eqb.
    assert (forall c d, py_str_int index = String c "" ->
                        py_str_int d = String c "" -> 0 <= d <= 3 -> False)
      as N.
    { intros c d E1 E2 Hd.
      pose proof (py_str_int_one_char _ E1) as H9.
      assert (index = 4 \/ index = 5 \/ index = 6 \/ index = 7 \/
              index = 8 \/ index = 9) as C.
      { apply andb_false_iff in R. destruct R as [R | R];
          [apply Z.leb_gt in R | apply Z.ltb_ge in R]; lia. }
      assert (d = 0 \/ d = 1 \/ d = 2 \/ d = 3) as D by lia.
      destruct D as [-> | [-> | [-> | ->]]];
        vm_compute in E2; injection E2 as <-;
        destruct C as [-> | [-> | [-> | [-> | [-> | ->]]]]];
        vm_compute in E1; discriminate. }
    destruct (String.eqb (py_str_int index) "0") eqn:E0;
      [apply String.eqb_eq in E0; elim (N _ 0 E0 eq_refl); lia |].
    destruct (String.eqb (py_str_int index) "1") eqn:E1;
      [apply String.eqb_eq in E1; elim (N _ 1 E1 eq_refl); lia |].
    destruct (String.eqb (py_str_int index) "2") eqn:E2;
      [apply String.eqb_eq in E2; elim (N _ 2 E2 eq_refl); lia |].
    destruct (String.eqb (py_str_int index) "3") eqn:E3;
      [apply String.eqb_eq in E3; elim (N _ 3 E3 eq_refl); lia |].
    reflexivity.
Qed.

(* ================================================================== *)
(** ** The color printer *)
(* ================================================================== *)

Lemma format_02X_byte (n : Z) : 0 <= n <= 255 -> format_02X n = byte_text n.
Proof.
  intros H.
  assert (forallb (fun k => String.eqb (format_02X k) (byte_text k))
                  (map Z.of_nat (seq 0 256)) = true) as A
    by (vm_compute; reflexivity).
  rewrite forallb_forall in A.
  apply String.eqb_eq. apply A.
  apply in_map_iff. exists (Z.to_nat n). split; [lia |].
  apply in_seq. lia.
Qed.

Section ColorFacts.
Context {dbg : Debugger}.

(** X9. A color provider binds r, g, b, a to the sub-fields x, y, z, w
    of the member ["0"], and looking a child up by name, with
    [get_child_index] and then [get_child_at_index], gives for ["r"],
    ["g"], ["b"], ["a"] the child built from that sub-field and labeled
    with the name, and [None] for every other name. *)
Theorem color_child_by_name (valobj : SBValue) :
  exists self,
    Color.__init__ valobj = Return self /\
    forall name : string,
      (idx <- Color.get_child_index name ;;
       Color.get_child_at_index self idx) =
      Return (if string_dec name "r" then Some (child_of (field valobj "x") name)
              else if string_dec name "g" then Some (child_of (field valobj "y") name)
              else if string_dec name "b" then Some (child_of (field valobj "z") name)
              else if string_dec name "a" then Some (child_of (field valobj "w") name)
              else None).
Proof.
  eexists. split; [reflexivity |].
  intros name. unfold Color.get_child_index. rewrite !eqb_string_dec.
  repeat match goal with
         | |- context [string_dec ?a ?b] =>
             destruct (string_dec a b) as [-> | ?]
         end; reflexivity.
Qed.

Lemma color_summary_of_channels (valobj : SBValue) (r g b a : Z) :
  channel (GetValue (field (GetNonSyntheticValue valobj) "x")) = ReturnC r ->
  channel (GetValue (field (GetNonSyntheticValue valobj) "y")) = ReturnC g ->
  channel (GetValue (field (GetNonSyntheticValue valobj) "z")) = ReturnC b ->
  channel (GetValue (field (GetNonSyntheticValue valobj) "w")) = ReturnC a ->
  color_summary valobj =
    Return ("#" ++ format_02X r ++ format_02X g
                ++ format_02X b ++ format_02X a).
Proof.
  intros Hr Hg Hb Ha.
  unfold color_summary, Color.__init__, Color.update, field in *.
  cbn [of_py bindC Color.r Color.g Color.b Color.a].
  now rewrite Hr, Hg, Hb, Ha.
Qed.

(** X10. [color_summary] never raises, and is the placeholder
    ["Color(...)"] whenever a channel fails to convert: when its
    sub-field shows no value ([TypeError]), shows a text [float]
    rejects or a nan ([ValueError]), or shows an infinity
    ([OverflowError] from [int]). *)
Theorem color_summary_failure (valobj : SBValue) :
  returns (color_summary valobj) /\
  (forall f e,
      In f ["x"; "y"; "z"; "w"] ->
      channel (GetValue (field (GetNonSyntheticValue valobj) f)) = RaiseC e ->
      color_summary valobj = Return "Color(...)") /\
  channel None = RaiseC (Exn TypeError) /\
  (forall s, float_of_string s = None ->
             channel (Some s) = RaiseC (Exn ValueError)) /\
  (forall s, float_of_string s = Some S754_nan ->
             channel (Some s) = RaiseC (Exn ValueError)) /\
  (forall s sign, float_of_string s = Some (S754_infinity sign) ->
                  channel (Some s) = RaiseC OverflowError).
Proof.
  split; [| split; [| split; [| split; [| split]]]].
  - unfold color_summary, try_exceptC, returns.
    match goal with
    | |- exists a, match ?b with _ => _ end = _ => destruct b
    end; eauto.
  - intros f e Hin He.
    unfold color_summary, Color.__init__, Color.update, field in *.
    cbn [of_py bindC Color.r Color.g Color.b Color.a].
    simpl in Hin.
    destruct Hin as [<- | [<- | [<- | [<- | []]]]];
      repeat match goal with
             | |- context [channel ?x] =>
                 lazymatch goal with
                 | H : channel x = _ |- _ => rewrite H
                 | |- _ => destruct (channel x) eqn:?
                 end; cbn [bindC try_exceptC]
             end;
      try reflexivity; try congruence.
  - reflexivity.
  - intros s E. unfold channel, py_float. now rewrite E.
  - intros s E. unfold channel, py_float. now rewrite E.
  - intros s sign E. unfold channel, py_float. rewrite E.
    destruct sign; reflexivity.
Qed.

(** X11. When the four channels convert and each lies in 0..255, the
    summary is ["#"] followed by eight upper-case hexadecimal digits,
    two for each of r, g, b, a in that order: nine characters. *)
Theorem color_summary_of_bytes (valobj : SBValue) (r g b a : Z) :
  channel (GetValue (field (GetNonSyntheticValue valobj) "x")) = ReturnC r ->
  channel (GetValue (field (GetNonSyntheticValue valobj) "y")) = ReturnC g ->
  channel (GetValue (field (GetNonSyntheticValue valobj) "z")) = ReturnC b ->
  channel (GetValue (field (GetNonSyntheticValue valobj) "w")) = ReturnC a ->
  0 <= r <= 255 -> 0 <= g <= 255 -> 0 <= b <= 255 -> 0 <= a <= 255 ->
  color_summary valobj =
    Return ("#" ++ byte_text r ++ byte_text g ++ byte_text b ++ byte_text a) /\
  String.length ("#" ++ byte_text r ++ byte_text g
                     ++ byte_text b ++ byte_text a) = 9%nat.
Proof.
  intros Hr Hg Hb Ha Rr Rg Rb Ra.
  rewrite (color_summary_of_channels _ Hr Hg Hb Ha).
  rewrite !format_02X_byte by assumption.
  split; reflexivity.
Qed.

End ColorFacts.

(* ================================================================== *)
(** ** The printers at work, on the reference debugger *)
(* ================================================================== *)

(** X6 at a vector of four floats stored from address 4096 on. *)
Lemma vector_summary_shows_children_witness :
  vec4_summary (dbg := tree_debugger) (tgt := tree_target)
    (tree_vector "4096" "4") =
  Return "{x:1.5, y:-2, z:0.25, w:8}".
Proof.
  exact (proj2 (proj2 (@vector_summary_shows_children
                         tree_debugger tree_target (tree_vector "4096" "4")))
           (@Vec4.Build_t tree_debugger (tree_vector "4096" "4") 4096 4)
           (Node "x" (Some "1.5") []) (Node "y" (Some "-2") [])
           (Node "z" (Some "0.25") []) (Node "w" (Some "8") [])
           eq_refl eq_refl eq_refl eq_refl eq_refl eq_refl).
Defined.

(** X11 at the color (1, 0, 0.5, 1). *)
Lemma color_summary_of_bytes_witness :
  color_summary (dbg := tree_debugger)
    (tree_color (Some "1") (Some "0") (Some "0.5") (Some "1")) =
  Return "#FF007FFF".
Proof.
  apply (@color_summary_of_bytes tree_debugger
           (tree_color (Some "1") (Some "0") (Some "0.5") (Some "1"))
           255 0 127 255);
    try (vm_compute; reflexivity); lia.
Defined.
